(** * A shallow embedding of rez's filesystem package repository

    Source: [src/rezplugins/package_repository/filesystem.py].

    The development follows the layout of the Python module: Python values
    and the few builtins the module relies on, the filesystem and the
    effects of the [os] calls, the utility function [_get_file], the
    split-layout resources, the combined-layout resources and finally the
    repository.  Definitions keep the names of the source. *)

From Stdlib Require Import ZArith QArith Qcanon String Ascii Lia.
From stdpp Require Import base option list strings gmap pretty.

Set Warnings "-register-all".
Open Scope string_scope.
Open Scope Z_scope.

(** ** Python values *)

(** The values that occur in package documents: [None], integers, strings,
    lists and dictionaries keyed by strings. *)
Inductive value :=
| VNone
| VInt (z : Z)
| VStr (s : string)
| VList (l : list value)
| VDict (d : gmap string value).

(** A document is a Python [dict] from field names to values. *)
Abbreviation doc := (gmap string value).

(** The exceptions that the modelled code can raise. [LoaderError] stands for
    whatever the metadata loader raises on a file it cannot read or parse. *)
Inductive exn :=
| InvalidName
| PackageMetadataError
| OSError
| KeyError
| TypeError
| AttributeError
| AssertionError
| VersionError
| LoaderError (msg : string).

(** The outcome of a Python call: a value, or a raised exception. *)
Inductive res (A : Type) :=
| Ok (a : A)
| Raise (e : exn).
Arguments Ok {A} a.
Arguments Raise {A} e.

#[global] Instance res_ret : MRet res := fun A a => Ok a.
#[global] Instance res_bind : MBind res := fun A B k r =>
  match r with
  | Ok a => k a
  | Raise e => Raise e
  end.

(** Truth value of an object, as tested by [if x:]. *)
Definition truthy (v : value) : bool :=
  match v with
  | VNone => false
  | VInt z => negb (z =? 0)
  | VStr s => negb (String.eqb s "")
  | VList l => match l with [] => false | _ => true end
  | VDict d => negb (bool_decide (d = ∅))
  end.

Definition str_len (s : string) : Z := Z.of_nat (String.length s).

(** [len(x)] *)
Definition py_len (v : value) : res Z :=
  match v with
  | VStr s => Ok (str_len s)
  | VList l => Ok (Z.of_nat (List.length l))
  | VDict d => Ok (Z.of_nat (size d))
  | _ => Raise TypeError
  end.

(** [s[:n]] on a string; a negative bound counts from the end. *)
Definition str_slice_to (s : string) (n : Z) : string :=
  if 0 <=? n then substring 0 (Z.to_nat n) s
  else substring 0 (Z.to_nat (str_len s + n)) s.

(** [x[:n]] *)
Definition py_slice_to (v : value) (n : Z) : res value :=
  match v with
  | VStr s => Ok (VStr (str_slice_to s n))
  | VList l =>
      Ok (VList (if 0 <=? n then take (Z.to_nat n) l
                 else take (Z.to_nat (Z.of_nat (List.length l) + n)) l))
  | _ => Raise TypeError
  end.

(** [x + y] on the operands the module uses it with. *)
Definition py_add (v w : value) : res value :=
  match v, w with
  | VStr s, VStr t => Ok (VStr (s +:+ t))
  | VInt a, VInt b => Ok (VInt (a + b))
  | VList a, VList b => Ok (VList (a ++ b))
  | _, _ => Raise TypeError
  end.

(** The line feed character and ['\n']. *)
Definition LF : ascii := ascii_of_nat 10.
Definition nl : string := String LF "".

(** [sep.join(items)]: every item has to be a string. *)
Fixpoint str_join (sep : string) (items : list value) : res string :=
  match items with
  | [] => Ok ""
  | [VStr s] => Ok s
  | VStr s :: rest =>
      match str_join sep rest with
      | Ok t => Ok (s +:+ sep +:+ t)
      | Raise e => Raise e
      end
  | _ :: _ => Raise TypeError
  end.

(** Python's whitespace, as removed by [str.strip()]. *)
Definition is_space (c : ascii) : bool :=
  let n := nat_of_ascii c in
  ((n =? 32) || ((9 <=? n) && (n <=? 13)))%nat.

Fixpoint lstrip (s : string) : string :=
  match s with
  | String c rest => if is_space c then lstrip rest else s
  | EmptyString => EmptyString
  end.

Fixpoint rstrip (s : string) : string :=
  match s with
  | String c rest =>
      match rstrip rest with
      | EmptyString => if is_space c then EmptyString else String c EmptyString
      | t => String c t
      end
  | EmptyString => EmptyString
  end.

(** [s.strip()] *)
Definition py_strip (s : string) : string := rstrip (lstrip s).

Definition digit_of (c : ascii) : option Z :=
  let n := nat_of_ascii c in
  if ((48 <=? n) && (n <=? 57))%nat then Some (Z.of_nat n - 48) else None.

Fixpoint digits_from (acc : Z) (s : string) : option Z :=
  match s with
  | EmptyString => Some acc
  | String c rest =>
      match digit_of c with
      | Some d => digits_from (10 * acc + d) rest
      | None => None
      end
  end.

Definition decimal (s : string) : option Z :=
  match s with
  | EmptyString => None
  | _ => digits_from 0 s
  end.

(** [int(s)] on a string, base ten: surrounding whitespace, an optional sign,
    then one or more decimal digits. [None] stands for [ValueError]. *)
Definition py_int (s : string) : option Z :=
  match py_strip s with
  | String "+" rest => decimal rest
  | String "-" rest => Z.opp <$> decimal rest
  | t => decimal t
  end.

(** [d.update(other)]: the entries of [other] replace those of [d]. *)
Definition dict_update (d other : doc) : doc := other ∪ d.

(** [del d[k]] *)
Definition dict_del (k : string) (d : doc) : res doc :=
  match d !! k with
  | Some _ => Ok (delete k d)
  | None => Raise KeyError
  end.

(** ** File formats *)

(** [rez.serialise.FileFormat], of which the module uses the members [py],
    [yaml] and [txt] and their [extension]. *)
Inductive FileFormat := py | yaml | txt.

#[global] Instance FileFormat_eq_dec : EqDecision FileFormat.
Proof. solve_decision. Defined.

Definition extension (f : FileFormat) : string :=
  match f with
  | py => "py"
  | yaml => "yaml"
  | txt => "txt"
  end.

(** ** The filesystem and the [os] calls *)

(** What [os.stat] reports and the module reads. Modification times are
    Python floats; they are kept as rationals and only ever compared. *)
Record stat_result := { st_ino : Z; st_mtime : Qc }.

Inductive node :=
| File (content : string) (st : stat_result)
| Dir (entries : list string) (st : stat_result).

Definition node_stat (n : node) : stat_result :=
  match n with
  | File _ st | Dir _ st => st
  end.

(** A filesystem resolves a path to the node found there, if any. *)
Definition filesystem := string → option node.

(** The filesystem calls a run performs, oldest first. *)
Inductive fs_event :=
| EvIsFile (path : string)
| EvIsDir (path : string)
| EvStat (path : string)
| EvListDir (path : string)
| EvRead (path : string).

(** ** Resources and their handles *)

(** The keyword arguments of [get_resource]: strings, [None], or an index. *)
Inductive var :=
| VarNone
| VarStr (s : string)
| VarInt (z : Z).

#[global] Instance var_eq_dec : EqDecision var.
Proof. solve_decision. Defined.

#[global] Instance var_countable : Countable var.
Proof.
  refine (inj_countable'
    (λ v, match v with
          | VarNone => inl ()
          | VarStr s => inr (inl s)
          | VarInt z => inr (inr z)
          end)
    (λ x, match x with
          | inl _ => VarNone
          | inr (inl s) => VarStr s
          | inr (inr z) => VarInt z
          end) _).
  by intros [].
Defined.

(** A resource handle: the resource key (its kind) and the variables. *)
Abbreviation ResourceHandle := (string * gmap string var)%type.

(** A resource object. [res_id] is the identity of the Python object: two
    resources are the same object exactly when their identities agree. *)
Record Resource := { res_id : nat; res_handle : ResourceHandle }.

#[global] Instance Resource_eq_dec : EqDecision Resource.
Proof. solve_decision. Defined.

Definition res_key (r : Resource) : string := (res_handle r).1.
Definition variables (r : Resource) : gmap string var := (res_handle r).2.

(** [Resource.get(key)]: [self.variables.get(key, None)] *)
Definition get (self : Resource) (key : string) : var :=
  default VarNone (variables self !! key).

Definition var_truthy (v : var) : bool :=
  match v with
  | VarNone => false
  | VarStr s => negb (String.eqb s "")
  | VarInt z => negb (z =? 0)
  end.

(** ** The state of the process *)

(** The filesystem (which other processes may change between two calls), the
    calls made on it so far, and the memo tables of the process: the resource
    pool, the listing cache ([mem_cached]), the [lru_cache] of [_get_family],
    whose key is the repository object and the name, and the
    [cached_property] slots of the resource objects, by identity. *)
Record world := {
  fs : filesystem;
  trace : list fs_event;
  pool : gmap ResourceHandle Resource;
  listdir_memo : gmap (string * Z * Qc) (list string);
  family_memo : gmap (nat * string * string) (option Resource);
  filepath_memo : gmap nat (option string * option FileFormat);
  parent_memo : gmap nat Resource
}.

Definition set_fs (f : filesystem) (w : world) : world :=
  {| fs := f; trace := trace w; pool := pool w;
     listdir_memo := listdir_memo w; family_memo := family_memo w;
     filepath_memo := filepath_memo w; parent_memo := parent_memo w |}.

Definition set_trace (t : list fs_event) (w : world) : world :=
  {| fs := fs w; trace := t; pool := pool w;
     listdir_memo := listdir_memo w; family_memo := family_memo w;
     filepath_memo := filepath_memo w; parent_memo := parent_memo w |}.

Definition set_pool (p : gmap ResourceHandle Resource) (w : world) : world :=
  {| fs := fs w; trace := trace w; pool := p;
     listdir_memo := listdir_memo w; family_memo := family_memo w;
     filepath_memo := filepath_memo w; parent_memo := parent_memo w |}.

Definition set_listdir_memo (m : gmap (string * Z * Qc) (list string))
    (w : world) : world :=
  {| fs := fs w; trace := trace w; pool := pool w;
     listdir_memo := m; family_memo := family_memo w;
     filepath_memo := filepath_memo w; parent_memo := parent_memo w |}.

Definition set_family_memo
    (m : gmap (nat * string * string) (option Resource)) (w : world)
  : world :=
  {| fs := fs w; trace := trace w; pool := pool w;
     listdir_memo := listdir_memo w; family_memo := m;
     filepath_memo := filepath_memo w; parent_memo := parent_memo w |}.

Definition set_filepath_memo
    (m : gmap nat (option string * option FileFormat)) (w : world) : world :=
  {| fs := fs w; trace := trace w; pool := pool w;
     listdir_memo := listdir_memo w; family_memo := family_memo w;
     filepath_memo := m; parent_memo := parent_memo w |}.

Definition set_parent_memo (m : gmap nat Resource) (w : world) : world :=
  {| fs := fs w; trace := trace w; pool := pool w;
     listdir_memo := listdir_memo w; family_memo := family_memo w;
     filepath_memo := filepath_memo w; parent_memo := m |}.

(** A process that has just started on the filesystem [f]. *)
Definition start (f : filesystem) : world :=
  {| fs := f; trace := []; pool := ∅; listdir_memo := ∅; family_memo := ∅;
     filepath_memo := ∅; parent_memo := ∅ |}.

(** ** Computations: state passing with exceptions *)

Definition M (A : Type) : Type := world → res A * world.

#[global] Instance M_ret : MRet M := λ A a w, (Ok a, w).
#[global] Instance M_bind : MBind M := λ A B k m w,
  match m w with
  | (Ok a, w') => k a w'
  | (Raise e, w') => (Raise e, w')
  end.

Definition ret {A} (a : A) : M A := mret a.
Definition raise {A} (e : exn) : M A := λ w, (Raise e, w).
Definition lift {A} (r : res A) : M A := λ w, (r, w).

(** [try: body  except <caught>: handler] *)
Definition try_except {A} (body : M A) (caught : exn → bool) (handler : M A)
  : M A := λ w,
  match body w with
  | (Raise e, w') => if caught e then handler w' else (Raise e, w')
  | r => r
  end.

Definition is_OSError (e : exn) : bool :=
  match e with
  | OSError => true
  | _ => false
  end.

Fixpoint mapM {A B} (f : A → M B) (l : list A) : M (list B) :=
  match l with
  | [] => ret []
  | x :: rest => y ← f x; ys ← mapM f rest; ret (y :: ys)
  end.

Fixpoint filterM {A} (f : A → M bool) (l : list A) : M (list A) :=
  match l with
  | [] => ret []
  | x :: rest =>
      b ← f x; ys ← filterM f rest; ret (if (b : bool) then x :: ys else ys)
  end.

Definition log (e : fs_event) (w : world) : world :=
  set_trace (trace w ++ [e]) w.

(** Whether a path resolves to a regular file, to a directory. *)
Definition isfile (f : filesystem) (path : string) : bool :=
  match f path with
  | Some (File _ _) => true
  | _ => false
  end.

Definition isdir (f : filesystem) (path : string) : bool :=
  match f path with
  | Some (Dir _ _) => true
  | _ => false
  end.

(** [os.path.isfile(path)] *)
Definition os_path_isfile (path : string) : M bool := λ w,
  (Ok (isfile (fs w) path), log (EvIsFile path) w).

(** [os.path.isdir(path)] *)
Definition os_path_isdir (path : string) : M bool := λ w,
  (Ok (isdir (fs w) path), log (EvIsDir path) w).

(** [os.stat(path)] *)
Definition os_stat (path : string) : M stat_result := λ w,
  (match fs w path with
   | Some n => Ok (node_stat n)
   | None => Raise OSError
   end, log (EvStat path) w).

(** [os.path.getmtime(path)]: [os.stat(path).st_mtime] *)
Definition os_path_getmtime (path : string) : M Qc :=
  st ← os_stat path; ret (st_mtime st).

(** [os.listdir(path)] *)
Definition os_listdir (path : string) : M (list string) := λ w,
  (match fs w path with
   | Some (Dir entries _) => Ok entries
   | _ => Raise OSError
   end, log (EvListDir path) w).

(** Reading the whole content of a file. *)
Definition read_file (path : string) : M string := λ w,
  (match fs w path with
   | Some (File content _) => Ok content
   | _ => Raise (LoaderError path)
   end, log (EvRead path) w).

Fixpoint str_endswith_char (s : string) (c : ascii) : bool :=
  match s with
  | EmptyString => false
  | String x EmptyString => bool_decide (x = c)
  | String _ rest => str_endswith_char rest c
  end.

(** [os.path.join(a, b)] of [posixpath] *)
Definition os_path_join (a b : string) : string :=
  if String.prefix "/" b then b
  else if String.eqb a "" || str_endswith_char a "/" then a +:+ b
  else a +:+ "/" +:+ b.

(** [s.rfind(c)], or [None] where Python returns [-1]. *)
Fixpoint str_rfind (s : string) (c : ascii) : option nat :=
  match s with
  | EmptyString => None
  | String x rest =>
      match str_rfind rest c with
      | Some i => Some (S i)
      | None => if Ascii.eqb x c then Some 0%nat else None
      end
  end.

(** Whether some character of [s] is not [c]. *)
Fixpoint str_has_other (s : string) (c : ascii) : bool :=
  match s with
  | EmptyString => false
  | String x rest => negb (Ascii.eqb x c) || str_has_other rest c
  end.

(** [os.path.splitext(p)] of [posixpath]: the extension starts at the last
    dot of the last path component, unless only dots come before it in
    that component. *)
Definition os_path_splitext (p : string) : string * string :=
  match str_rfind p "." with
  | None => (p, "")
  | Some dotIndex =>
      let filenameIndex :=
        match str_rfind p "/" with
        | Some sepIndex => S sepIndex
        | None => 0%nat
        end in
      if (filenameIndex <=? dotIndex)%nat
         && str_has_other
              (substring filenameIndex (dotIndex - filenameIndex) p) "."
      then (substring 0 dotIndex p,
            substring dotIndex (String.length p - dotIndex) p)
      else (p, "")
  end.

(** [s[1:]] *)
Definition str_tail (s : string) : string :=
  match s with
  | EmptyString => ""
  | String _ rest => rest
  end.

(** ** What the module imports *)

(** The collaborators that are imported from the rest of rez and are not
    part of this module: the configured changelog budget
    ([config.max_package_changelog_chars]), the package-name predicate
    ([rez.utils.formatting.is_valid_package_name]) and the parsers of the
    structured file formats ([rez.serialise]), which turn the content of a
    [py] or [yaml] file into a document, or fail ([None]) with an error of
    the loader. *)
Class Env := {
  max_package_changelog_chars : Z;
  is_valid_package_name : string → bool;
  load_structured : FileFormat → string → option doc
}.

(** [rez.vendor.version]: versions, version ranges, the constructor
    [Version(s)], which rejects a malformed string, and the test
    [version in range_]. *)
Class Versions := {
  Version : Type;
  VersionRange : Type;
  mkVersion : var → res Version;
  contains : VersionRange → Version → bool
}.

(** [str(x)], as used by ["%s" % x]. *)
Definition py_str (v : var) : string :=
  match v with
  | VarNone => "None"
  | VarStr s => s
  | VarInt z => pretty z
  end.

(** A variable used as a path component: [os.path.join] only takes strings. *)
Definition as_path (v : var) : res string :=
  match v with
  | VarStr s => Ok s
  | _ => Raise AttributeError
  end.

Definition value_of_var (v : var) : value :=
  match v with
  | VarNone => VNone
  | VarStr s => VStr s
  | VarInt z => VInt z
  end.

(** [if filepath:] on a path or [None]. *)
Definition path_truthy (p : option string) : bool :=
  match p with
  | Some s => negb (String.eqb s "")
  | None => false
  end.

(** [FileFormat[name]]: the member of that name. *)
Definition FileFormat_getitem (name : var) : res FileFormat :=
  match name with
  | VarStr s =>
      if String.eqb s "py" then Ok py
      else if String.eqb s "yaml" then Ok yaml
      else if String.eqb s "txt" then Ok txt
      else Raise KeyError
  | _ => Raise KeyError
  end.

(** [self.location] and [self.name] of a resource: properties of the base
    class that read the resource's variables. *)
Definition location (self : Resource) : var := get self "location".
Definition name (self : Resource) : var := get self "name".

(** The [key] attributes of the resource classes. *)
Definition FileSystemPackageFamilyResource_key := "filesystem.family".
Definition FileSystemPackageResource_key := "filesystem.package".
Definition FileSystemVariantResource_key := "filesystem.variant".
Definition FileSystemCombinedPackageFamilyResource_key :=
  "filesystem.family.combined".
Definition FileSystemCombinedPackageResource_key :=
  "filesystem.package.combined".
Definition FileSystemCombinedVariantResource_key :=
  "filesystem.variant.combined".

(** [@cached_property]: the body runs on the first access and its result is
    kept in the slot of the object. A raised exception is not stored. *)
Definition cached_property {A} (slot : world → option A)
    (store : A → world → world) (body : M A) : M A := λ w,
  match slot w with
  | Some a => (Ok a, w)
  | None =>
      match body w with
      | (Ok a, w') => (Ok a, store a w')
      | r => r
      end
  end.

(** ** utility functions *)

Fixpoint _get_file_from (formats : list FileFormat) (path name : string)
  : M (option string * option FileFormat) :=
  match formats with
  | [] => ret (None, None)
  | format_ :: rest =>
      let filename := name +:+ "." +:+ extension format_ in
      let filepath := os_path_join path filename in
      b ← os_path_isfile filepath;
      if (b : bool) then ret (Some filepath, Some format_)
      else _get_file_from rest path name
  end.

(** get a file that could be .yaml or .py *)
Definition _get_file (path name : string)
  : M (option string * option FileFormat) :=
  _get_file_from [py; yaml] path name.

(** Modelled from the spec: [rez.serialise.load_from_file] is not part of
    the module. The loader reads the file and parses it according to the
    declared format into a document, or fails; a text file is returned as
    its content. The callback, when given, post-processes the result. *)
Definition load_from_file `{Env} (filepath : string) (format_ : FileFormat)
    (update_data_callback : option (FileFormat → value → res value))
  : M value :=
  content ← read_file filepath;
  result ← lift match format_ with
                | txt => Ok (VStr content)
                | _ =>
                    match load_structured format_ content with
                    | Some d => Ok (VDict d)
                    | None => Raise (LoaderError filepath)
                    end
                end;
  match update_data_callback with
  | Some callback => lift (callback format_ result)
  | None => ret result
  end.

(** ** The parts of the repository that the resources call back *)

Module PackageRepository.

(** Modelled from the spec: [get_resource] belongs to the base class
    [rez.package_repository.PackageRepository] and its resource pool,
    which are not part of the module. The registry resolves a (kind,
    parameters) key to a singleton resource instance: a memo table with
    insert-if-absent, never evicted. A new object gets a fresh identity. *)
Definition get_resource (resource_key : string)
    (variables : gmap string var) : M Resource := λ w,
  let handle := (resource_key, variables) in
  match pool w !! handle with
  | Some resource => (Ok resource, w)
  | None =>
      let resource := {| res_id := size (pool w); res_handle := handle |} in
      (Ok resource, set_pool (<[handle := resource]> (pool w)) w)
  end.

Definition _get_version_dirs__key (root : string)
  : M (string * Z * Qc) :=
  st ← os_stat root;
  ret (root, st_ino st, st_mtime st).

Definition _get_version_dirs__body (root : string) : M (list string) :=
  names ← os_listdir root;
  filterM (λ name,
    if String.prefix "." name then ret false
    else os_path_isdir (os_path_join root name)) names.

(** [@mem_cached(DataType.listdir, key_func=_get_version_dirs__key)].
    Modelled from the spec: [rez.memcache] is not part of the module. The
    listing is memoized under the key; a new key forces a re-scan. *)
Definition _get_version_dirs (root : string) : M (list string) :=
  key ← _get_version_dirs__key root;
  cached_property (λ w, listdir_memo w !! key)
    (λ dirs w, set_listdir_memo (<[key := dirs]> (listdir_memo w)) w)
    (_get_version_dirs__body root).

End PackageRepository.

(** ** resources *)

Module FileSystemPackageFamilyResource.

Definition key := FileSystemPackageFamilyResource_key.

Definition path (self : Resource) : res string :=
  l ← as_path (location self);
  n ← as_path (name self);
  Ok (os_path_join l n).

Definition _uri (self : Resource) : res string := path self.

Definition get_last_release_time (self : Resource) : M Qc :=
  (* this repository makes sure to update path mtime every time a
     variant is added to the repository *)
  path ← lift (l ← as_path (location self);
               n ← as_path (name self);
               Ok (os_path_join l n));
  try_except (os_path_getmtime path) is_OSError (ret 0%Qc).

Definition iter_packages (self : Resource) : M (list Resource) :=
  (* check for unversioned package *)
  p ← lift (path self);
  '(filepath, _) ← _get_file p "package";
  if path_truthy filepath then
    package ← PackageRepository.get_resource
      FileSystemPackageResource_key
      {[ "location" := location self; "name" := name self ]};
    ret [package]
  else
    (* versioned packages *)
    p ← lift (path self);
    dirs ← PackageRepository._get_version_dirs p;
    mapM (λ version_str,
      PackageRepository.get_resource
        FileSystemPackageResource_key
        {[ "location" := location self; "name" := name self;
           "version" := VarStr version_str ]}) dirs.

End FileSystemPackageFamilyResource.

Module FileSystemPackageResource.

Definition key := FileSystemPackageResource_key.
Definition variant_key := FileSystemVariantResource_key.

Section methods.
Context `{Env}.

Definition parent (self : Resource) : M Resource :=
  cached_property (λ w, parent_memo w !! res_id self)
    (λ r w, set_parent_memo (<[res_id self := r]> (parent_memo w)) w)
    (PackageRepository.get_resource
       FileSystemPackageFamilyResource_key
       {[ "location" := location self; "name" := name self ]}).

Definition path (self : Resource) : res string :=
  l ← as_path (location self);
  n ← as_path (name self);
  let path := os_path_join l n in
  let ver_str := get self "version" in
  if var_truthy ver_str then
    v ← as_path ver_str;
    Ok (os_path_join path v)
  else Ok path.

Definition _filepath_and_format (self : Resource)
  : M (option string * option FileFormat) :=
  cached_property (λ w, filepath_memo w !! res_id self)
    (λ v w, set_filepath_memo (<[res_id self := v]> (filepath_memo w)) w)
    (p ← lift (path self); _get_file p "package").

Definition filepath (self : Resource) : M (option string) :=
  v ← _filepath_and_format self; ret v.1.

Definition file_format (self : Resource) : M (option FileFormat) :=
  v ← _filepath_and_format self; ret v.2.

Definition _uri (self : Resource) : M (option string) := filepath self.

(** [self.uri]: the property of the base class that returns [_uri()]. *)
Definition uri (self : Resource) : M (option string) := _uri self.

Definition base (self : Resource) : res string := path self.

Definition _update_changelog (file_format : FileFormat) (data : value)
  : res value :=
  (* this is to deal with older package releases. They can contain long
     changelogs, and release.yaml files can contain a list-of-str
     changelog. *)
  let maxlen := max_package_changelog_chars in
  if decide (file_format = yaml) then
    match data with
    | VDict d =>
        let changelog := default VNone (d !! "changelog") in
        if truthy changelog then
          '(changelog, changed) ←
             match changelog with
             | VList lines => s ← str_join nl lines; Ok (VStr s, true)
             | _ => Ok (changelog, false)
             end;
          n ← py_len changelog;
          '(changelog, changed) ←
             (if maxlen + 3 <? n then
                c ← py_slice_to changelog maxlen;
                c' ← py_add c (VStr "...");
                Ok (c', true)
              else Ok (changelog, changed));
          Ok (if (changed : bool)
              then VDict (<["changelog" := changelog]> d)
              else data)
        else Ok data
    | _ => Raise AttributeError
    end
  else
    match data with
    | VStr s =>
        if maxlen + 3 <? str_len s
        then Ok (VStr (str_slice_to s maxlen +:+ "..."))
        else Ok data
    | _ => Raise AssertionError
    end.

Definition _load_old_formats (self : Resource) : M value :=
  u ← uri self;
  path ← match u with
         | Some p => ret p
         | None => raise AttributeError
         end;
  let filepath := os_path_join path "release.yaml" in
  b ← os_path_isfile filepath;
  if (b : bool) then
    (* rez<2.0.BETA.16 *)
    load_from_file filepath yaml (Some _update_changelog)
  else
    let path_ := os_path_join path ".metadata" in
    b ← os_path_isdir path_;
    if (b : bool) then
      (* rez-1 *)
      let data : doc := ∅ in
      let filepath := os_path_join path_ "changelog.txt" in
      b ← os_path_isfile filepath;
      data ← (if (b : bool) then
                c ← load_from_file filepath txt (Some _update_changelog);
                ret (<["changelog" := c]> data)
              else ret data);
      let filepath := os_path_join path_ "release_time.txt" in
      b ← os_path_isfile filepath;
      data ← (if (b : bool) then
                value ← load_from_file filepath txt None;
                (* try: data["timestamp"] = int(value.strip())
                   except: pass *)
                match value with
                | VStr s =>
                    match py_int (py_strip s) with
                    | Some z => ret (<["timestamp" := VInt z]> data)
                    | None => ret data
                    end
                | _ => ret data
                end
              else ret data);
      ret (VDict data)
    else ret VNone.

Definition _load (self : Resource) : M doc :=
  fp ← filepath self;
  match fp with
  | None => raise PackageMetadataError
  | Some fp =>
      fmt ← file_format self;
      format_ ← match fmt with
                | Some f => ret f
                | None => raise TypeError
                end;
      data ← load_from_file fp format_ None;
      match data with
      | VDict data =>
          if bool_decide (data !! "timestamp" = None) then
            (* old format support *)
            data_ ← _load_old_formats self;
            if truthy data_ then
              match data_ with
              | VDict data_ => ret (dict_update data data_)
              | _ => raise TypeError
              end
            else ret data
          else ret data
      | _ => raise TypeError
      end
  end.

End methods.
End FileSystemPackageResource.

Module FileSystemVariantResource.

Definition key := FileSystemVariantResource_key.

Definition parent (self : Resource) : M Resource :=
  cached_property (λ w, parent_memo w !! res_id self)
    (λ r w, set_parent_memo (<[res_id self := r]> (parent_memo w)) w)
    (PackageRepository.get_resource
       FileSystemPackageResource_key
       {[ "location" := location self; "name" := name self;
          "version" := get self "version" ]}).

End FileSystemVariantResource.

(** -- 'combined' resource types *)

Module FileSystemCombinedPackageFamilyResource.

Definition key := FileSystemCombinedPackageFamilyResource_key.

Definition ext (self : Resource) : var := get self "ext".

Definition filepath (self : Resource) : res string :=
  let filename := py_str (name self) +:+ "." +:+ py_str (ext self) in
  l ← as_path (location self);
  Ok (os_path_join l filename).

Definition _uri (self : Resource) : res string := filepath self.

Definition get_last_release_time (self : Resource) : M Qc :=
  try_except (p ← lift (filepath self); os_path_getmtime p)
    is_OSError (ret 0%Qc).

Section methods.
Context `{Env} `{Versions}.

(** [str(version)] *)
Variable str : Version → string.

(** [if not self.versions:] on the validated attribute, which is [None]
    when the family document has no [versions] key. *)
Definition versions_truthy (versions : option (list Version)) : bool :=
  match versions with
  | Some (_ :: _) => true
  | _ => false
  end.

(** [iter_packages], given the validated attribute [self.versions] of the
    loaded family document. *)
Definition iter_packages (versions : option (list Version))
    (self : Resource) : M (list Resource) :=
  (* unversioned package *)
  if negb (versions_truthy versions) then
    package ← PackageRepository.get_resource
      FileSystemCombinedPackageResource_key
      {[ "location" := location self; "name" := name self;
         "ext" := ext self ]};
    ret [package]
  else
    (* versioned packages *)
    mapM (λ version,
      PackageRepository.get_resource
        FileSystemCombinedPackageResource_key
        {[ "location" := location self; "name" := name self;
           "ext" := ext self; "version" := VarStr (str version) ]})
      (default [] versions).

Definition _load (self : Resource) : M value :=
  format_ ← lift (FileFormat_getitem (ext self));
  p ← lift (filepath self);
  load_from_file p format_ None.

End methods.

End FileSystemCombinedPackageFamilyResource.

Module FileSystemCombinedPackageResource.

Definition key := FileSystemCombinedPackageResource_key.
Definition variant_key := FileSystemCombinedVariantResource_key.

Definition parent (self : Resource) : M Resource :=
  cached_property (λ w, parent_memo w !! res_id self)
    (λ r w, set_parent_memo (<[res_id self := r]> (parent_memo w)) w)
    (PackageRepository.get_resource
       FileSystemCombinedPackageFamilyResource_key
       {[ "location" := location self; "name" := name self;
          "ext" := get self "ext" ]}).

(** [iter_variants], given the validated document [self.data] of the
    package. *)
Definition iter_variants (data : doc) (self : Resource)
  : M (list Resource) :=
  num_variants ← lift (py_len (default (VList []) (data !! "variants")));
  let indexes :=
    if num_variants =? 0 then [VarNone]
    else VarInt <$> seqZ 0 num_variants in
  mapM (λ index,
    PackageRepository.get_resource variant_key
      {[ "location" := location self; "name" := name self;
         "ext" := get self "ext"; "version" := get self "version";
         "index" := index ]}) indexes.

Section methods.
Context `{Versions}.

(** What [_load] reads from the parent family, once the family file is
    loaded: the family document [self.parent.data], and the validated
    attribute [self.parent.version_overrides], which is [None] when the
    document has no such key and else the mapping from ranges to
    override documents; the mapping is given by its items in the order
    in which [iteritems()] yields them. *)
Record family_view := {
  data : doc;
  version_overrides : option (list (VersionRange * doc))
}.

(** [if overrides:] *)
Definition overrides_truthy (o : option (list (VersionRange * doc)))
  : bool :=
  match o with
  | Some (_ :: _) => true
  | _ => false
  end.

Definition _load (parent : family_view) (self : Resource) : res doc :=
  let data := data parent in
  if bool_decide (is_Some (data !! "versions")) then
    data ← dict_del "versions" data;
    let version_str := get self "version" in
    let data := <["version" := value_of_var version_str]> data in
    version ← mkVersion version_str;
    let overrides := version_overrides parent in
    if overrides_truthy overrides then
      let data :=
        foldl (λ data '(range_, data_),
                 if contains range_ version
                 then dict_update data data_
                 else data)
              data (default [] overrides) in
      dict_del "version_overrides" data
    else Ok data
  else Ok data.

End methods.
End FileSystemCombinedPackageResource.

Module FileSystemCombinedVariantResource.

Definition key := FileSystemCombinedVariantResource_key.

Definition parent (self : Resource) : M Resource :=
  cached_property (λ w, parent_memo w !! res_id self)
    (λ r w, set_parent_memo (<[res_id self := r]> (parent_memo w)) w)
    (PackageRepository.get_resource
       FileSystemCombinedPackageResource_key
       {[ "location" := location self; "name" := name self;
          "ext" := get self "ext"; "version" := get self "version" ]}).

End FileSystemCombinedVariantResource.

(** ** repository *)

Module FileSystemPackageRepository.

(** The repository object: its identity as a Python object, and its
    location. The state of its caches is in the [world]. *)
Record t := { repo_id : nat; location : string }.

(** The key of a call [self._get_family(name)] in the [lru_cache]: the
    arguments of the call, [self] included. *)
Definition _get_family__key (self : t) (name : string)
  : nat * string * string :=
  (repo_id self, location self, name).

Section methods.
Context `{Env}.

(** The loop of [_get_family_dirs], with the list [dirs] built so far. *)
Fixpoint _get_family_dirs__loop (self : t) (names : list string)
    (dirs : list (string * option string))
  : M (list (string * option string)) :=
  match names with
  | [] => ret dirs
  | name :: names =>
      let path := os_path_join (location self) name in
      b ← os_path_isdir path;
      if (b : bool) then
        if is_valid_package_name name
        then _get_family_dirs__loop self names (dirs ++ [(name, None)])
        else _get_family_dirs__loop self names dirs
      else
        let '(name_, ext_) := os_path_splitext name in
        if bool_decide (ext_ ∈ [".py"; ".yaml"])
           && is_valid_package_name name_
        then _get_family_dirs__loop self names
               (dirs ++ [(name_, Some (str_tail ext_))])
        else _get_family_dirs__loop self names dirs
  end.

(** The body of [_get_family_dirs]: the scan that the decorator
    [@mem_cached(DataType.listdir, key_func=_get_family_dirs__key)]
    memoizes. *)
Definition _get_family_dirs__body (self : t)
  : M (list (string * option string)) :=
  names ← os_listdir (location self);
  _get_family_dirs__loop self names [].

Definition _get_family__body (self : t) (name : string)
  : M (option Resource) :=
  _ ← (if is_valid_package_name name then ret ()
       else raise InvalidName);
  b ← os_path_isdir (os_path_join (location self) name);
  if (b : bool) then
    family ← PackageRepository.get_resource
      FileSystemPackageFamilyResource_key
      {[ "location" := VarStr (location self); "name" := VarStr name ]};
    ret (Some family)
  else
    '(filepath, format_) ← _get_file (location self) name;
    if path_truthy filepath then
      f ← match format_ with
          | Some f => ret f
          | None => raise AttributeError
          end;
      family ← PackageRepository.get_resource
        FileSystemCombinedPackageFamilyResource_key
        {[ "location" := VarStr (location self); "name" := VarStr name;
           "ext" := VarStr (extension f) ]};
      ret (Some family)
    else ret None.

(** [@lru_cache(maxsize=None)]: results are kept per repository object
    and name for the life of the process; a call that raises stores
    nothing. *)
Definition _get_family (self : t) (name : string) : M (option Resource) :=
  cached_property (λ w, family_memo w !! _get_family__key self name)
    (λ r w,
       set_family_memo
         (<[_get_family__key self name := r]> (family_memo w)) w)
    (_get_family__body self name).

Definition get_package_family (self : t) (name : string)
  : M (option Resource) :=
  _get_family self name.

(** [package_family_resource.get_last_release_time()], dispatched on the
    class of the family resource. *)
Definition get_last_release_time (self : t)
    (package_family_resource : Resource) : M Qc :=
  if decide (res_key package_family_resource
             = FileSystemPackageFamilyResource_key) then
    FileSystemPackageFamilyResource.get_last_release_time
      package_family_resource
  else if decide (res_key package_family_resource
                  = FileSystemCombinedPackageFamilyResource_key) then
    FileSystemCombinedPackageFamilyResource.get_last_release_time
      package_family_resource
  else raise AttributeError.



End methods.
End FileSystemPackageRepository.

(** ** Sample collaborators, used to run the definitions on examples *)

Module Sample.

Definition is_word_char (c : ascii) : bool :=
  let n := nat_of_ascii c in
  (((48 <=? n) && (n <=? 57)) || ((65 <=? n) && (n <=? 90))
   || ((97 <=? n) && (n <=? 122)) || (n =? 95))%nat.

Fixpoint all_chars (p : ascii → bool) (s : string) : bool :=
  match s with
  | EmptyString => true
  | String c rest => p c && all_chars p rest
  end.

(** A package-name predicate: a non-empty word. *)
Definition valid_name (s : string) : bool :=
  negb (String.eqb s "") && all_chars is_word_char s.

Fixpoint split_on (c : ascii) (s : string) : list string :=
  match s with
  | EmptyString => [""]
  | String x rest =>
      if bool_decide (x = c) then "" :: split_on c rest
      else match split_on c rest with
           | h :: t => String x h :: t
           | [] => [String x ""]
           end
  end.

Fixpoint split_field (s : string) : option (string * string) :=
  match s with
  | EmptyString => None
  | String ":" (String " " rest) => Some ("", rest)
  | String c rest =>
      match split_field rest with
      | Some (k, v) => Some (String c k, v)
      | None => None
      end
  end.

(** A loader for a fragment of YAML: lines of the form [key: text]. *)
Definition load_fields (format_ : FileFormat) (content : string)
  : option doc :=
  foldr (λ line acc,
           if String.eqb line "" then acc
           else match acc, split_field line with
                | Some d, Some (k, v) => Some (<[k := VStr v]> d)
                | _, _ => None
                end)
        (Some ∅) (split_on LF content).

Definition env (maxlen : Z) : Env :=
  {| max_package_changelog_chars := maxlen;
     is_valid_package_name := valid_name;
     load_structured := load_fields |}.

(** Versions as sequences of numbers, ordered token by token. *)
Fixpoint tokens_le (a b : list Z) : bool :=
  match a, b with
  | [], _ => true
  | _ :: _, [] => false
  | x :: a', y :: b' =>
      if x <? y then true
      else if y <? x then false
      else tokens_le a' b'
  end.

Fixpoint tokens_prefix (a b : list Z) : bool :=
  match a, b with
  | [], _ => true
  | _ :: _, [] => false
  | x :: a', y :: b' => (x =? y) && tokens_prefix a' b'
  end.

(** Two forms of range: [V], the version [V] and those below it in the
    version tree, and [V+], the versions from [V] on. *)
Inductive range :=
| Family (v : list Z)
| AtLeast (v : list Z).

Definition in_range (r : range) (w : list Z) : bool :=
  match r with
  | Family v => tokens_prefix v w
  | AtLeast v => tokens_le v w
  end.

Fixpoint parse_tokens (l : list string) : option (list Z) :=
  match l with
  | [] => Some []
  | t :: rest =>
      match decimal t, parse_tokens rest with
      | Some n, Some ns => Some (n :: ns)
      | _, _ => None
      end
  end.

Definition make_version (v : var) : res (list Z) :=
  match v with
  | VarNone => Ok []
  | VarStr "" => Ok []
  | VarStr s =>
      match parse_tokens (split_on "." s) with
      | Some ts => Ok ts
      | None => Raise VersionError
      end
  | VarInt _ => Raise VersionError
  end.

Definition versions : Versions :=
  {| Version := list Z; VersionRange := range;
     mkVersion := make_version; contains := in_range |}.

(** A filesystem given by the list of its nodes. *)
Definition fs_of (nodes : list (string * node)) : filesystem :=
  λ path, (list_to_map nodes : gmap string node) !! path.

Definition st (ino : Z) (mtime : Z) : stat_result :=
  {| st_ino := ino; st_mtime := Q2Qc (inject_Z mtime) |}.

End Sample.

(** ** Notions used to state the properties *)

(** *** Changelogs *)

(** The changelog that the data handed to [_update_changelog] carries: the
    [changelog] field of a document, or the text itself. *)
Definition supplied_changelog (file_format : FileFormat) (data : value)
  : option value :=
  match file_format, data with
  | yaml, VDict d => d !! "changelog"
  | yaml, _ => None
  | _, VStr _ => Some data
  | _, _ => None
  end.

(** A changelog as one text: a string is its own text, a non-empty list of
    lines is joined with newlines. *)
Definition changelog_text (c : value) : option string :=
  match c with
  | VStr s => Some s
  | VList (line :: lines) =>
      match str_join nl (line :: lines) with
      | Ok t => Some t
      | Raise _ => None
      end
  | _ => None
  end.

(** The data with its changelog replaced by a text. *)
Definition with_changelog (file_format : FileFormat) (data : value)
    (text : string) : value :=
  match file_format, data with
  | yaml, VDict d => VDict (<["changelog" := VStr text]> d)
  | _, _ => VStr text
  end.

(** *** Combined packages *)

Section CombinedStatements.
Context `{Versions}.
Import FileSystemCombinedPackageResource.

(** The value that the overrides give to a field of the package with the
  given version: that of the last item, in iteration order, whose range
  contains the version and whose document has the field. *)
Fixpoint overridden (version : Version) (items : list (VersionRange * doc))
  (k : string) : option value :=
match items with
| [] => None
| (range_, data_) :: rest =>
    match overridden version rest k with
    | Some x => Some x
    | None => if contains range_ version then data_ !! k else None
    end
end.

(** The document of a versioned package before any override is merged. *)
Definition versioned_base (parent : family_view) (self : Resource) : doc :=
<["version" := value_of_var (get self "version")]>
  (delete "versions" (data parent)).

(** The loading of a combined package as the specification words it: only
  the override document of the first range that contains the version is
  merged. *)
Definition _load_first_match (parent : family_view) (self : Resource)
: res doc :=
let data := data parent in
if bool_decide (is_Some (data !! "versions")) then
  data ← dict_del "versions" data;
  let version_str := get self "version" in
  let data := <["version" := value_of_var version_str]> data in
  version ← mkVersion version_str;
  let overrides := version_overrides parent in
  if overrides_truthy overrides then
    let data :=
      match List.find (λ item, contains item.1 version)
                      (default [] overrides) with
      | Some (_, data_) => dict_update data data_
      | None => data
      end in
    dict_del "version_overrides" data
  else Ok data
else Ok data.

End CombinedStatements.

(** *** The filesystem seen by a computation *)

(** The modification time of a path, or zero when there is nothing there. *)
Definition mtime_or_zero (f : filesystem) (path : string) : Qc :=
  match f path with
  | Some n => st_mtime (node_stat n)
  | None => 0%Qc
  end.

(** The directory of a split family, the file of a combined family. *)
Definition backing_path (family : Resource) : res string :=
  if decide (res_key family = FileSystemPackageFamilyResource_key)
  then FileSystemPackageFamilyResource.path family
  else if decide (res_key family = FileSystemCombinedPackageFamilyResource_key)
  then FileSystemCombinedPackageFamilyResource.filepath family
  else Raise AttributeError.

(** A computation is steady when it leaves the filesystem alone and only
    adds to the record of the calls made. *)
Definition steady {A} (m : M A) : Prop :=
  ∀ w, fs (m w).2 = fs w ∧ ∃ evs, trace (m w).2 = (trace w ++ evs)%list.


(** A computation that does not raise [PackageMetadataError]. *)
Definition no_metadata_error {A} (m : M A) : Prop :=
  ∀ w, (m w).1 ≠ Raise PackageMetadataError.

(** What [_get_file] finds on a filesystem. *)
Definition probe (f : filesystem) (path name : string)
  : option string * option FileFormat :=
  let py_path := os_path_join path (name +:+ "." +:+ extension py) in
  let yaml_path := os_path_join path (name +:+ "." +:+ extension yaml) in
  if isfile f py_path then (Some py_path, Some py)
  else if isfile f yaml_path then (Some yaml_path, Some yaml)
  else (None, None).

(** The filesystem calls that [_get_file] makes. *)
Definition probes (f : filesystem) (path name : string) : list fs_event :=
  let py_path := os_path_join path (name +:+ "." +:+ extension py) in
  let yaml_path := os_path_join path (name +:+ "." +:+ extension yaml) in
  if isfile f py_path then [EvIsFile py_path]
  else [EvIsFile py_path; EvIsFile yaml_path].

(** *** Filesystems as they are *)

(** Nothing lies beneath a regular file: a path that goes on below the path
    of a regular file resolves to nothing. *)
Definition regular_files_are_leaves (f : filesystem) : Prop :=
  ∀ path name content st,
    f path = Some (File content st) →
    name ≠ "" → String.prefix "/" name = false →
    f (os_path_join path name) = None.

(** A check of it on the list of the nodes of a filesystem: no other node
    has a path that starts with the path of a regular file. *)
Definition leaves_check (nodes : list (string * node)) : bool :=
  forallb (λ '(path, n),
             match n with
             | File _ _ =>
                 forallb (λ '(path', _),
                            negb (String.prefix path path')
                            || String.eqb path' path) nodes
             | Dir _ _ => true
             end) nodes.

(** *** The registry *)


(** *** The memo tables *)

(** Every resource of the pool is stored under its own handle. *)
Definition pool_ok (w : world) : Prop :=
  ∀ h r, pool w !! h = Some r → res_handle r = h.

(** [later w w']: [w'] is a state that the process can be in after [w]; the
    memo tables are never evicted, while the filesystem may have changed. *)
Definition later (w w' : world) : Prop :=
  pool w ⊆ pool w'
  ∧ family_memo w ⊆ family_memo w'
  ∧ parent_memo w ⊆ parent_memo w'.

(** The [_filepath_and_format] slot of a package is current when it is
    empty or holds what a probe of the filesystem finds now. *)
Definition filepath_current (w : world) (self : Resource) (p : string)
  : Prop :=
  ∀ v, filepath_memo w !! res_id self = Some v → v = probe (fs w) p "package".

Section Statements.
Context `{Env}.
Import FileSystemPackageResource.

(** What [get_package_family] has to return for a name, given the nodes
  found on the filesystem. *)
Definition family_resolution (repo : FileSystemPackageRepository.t)
  (name : string) (f : filesystem) (r : res (option Resource)) : Prop :=
let location := FileSystemPackageRepository.location repo in
let dir := os_path_join location name in
let py_file := os_path_join location (name +:+ "." +:+ "py") in
let yaml_file := os_path_join location (name +:+ "." +:+ "yaml") in
let combined (ext : string) :=
  ∃ family, r = Ok (Some family)
    ∧ res_handle family
      = (FileSystemCombinedPackageFamilyResource_key,
         {[ "location" := VarStr location; "name" := VarStr name;
            "ext" := VarStr ext ]}) in
(is_valid_package_name name = false → r = Raise InvalidName)
∧ (is_valid_package_name name = true →
   (isdir f dir = true →
    ∃ family, r = Ok (Some family)
      ∧ res_handle family
        = (FileSystemPackageFamilyResource_key,
           {[ "location" := VarStr location; "name" := VarStr name ]}))
   ∧ (isdir f dir = false → isfile f py_file = true → combined "py")
   ∧ (isdir f dir = false → isfile f py_file = false →
      isfile f yaml_file = true → combined "yaml")
   ∧ (isdir f dir = false → isfile f py_file = false →
      isfile f yaml_file = false → r = Ok None)).

(** The result of [load_from_file] as a function of the filesystem. *)
Definition loaded (f : filesystem) (filepath : string)
  (format_ : FileFormat)
  (update_data_callback : option (FileFormat → value → res value))
: res value :=
match f filepath with
| Some (File content _) =>
    result ← match format_ with
             | txt => Ok (VStr content)
             | _ =>
                 match load_structured format_ content with
                 | Some d => Ok (VDict d)
                 | None => Raise (LoaderError filepath)
                 end
             end;
    match update_data_callback with
    | Some callback => callback format_ result
    | None => Ok result
    end
| _ => Raise (LoaderError filepath)
end.

(** The result of [_load_old_formats] as a function of the filesystem and
  of the path that [self.uri] gives. *)
Definition recovered_fields (f : filesystem) (path : string) : res value :=
let release := os_path_join path "release.yaml" in
let metadata := os_path_join path ".metadata" in
let changelog := os_path_join metadata "changelog.txt" in
let release_time := os_path_join metadata "release_time.txt" in
if isfile f release then loaded f release yaml (Some _update_changelog)
else if isdir f metadata then
  data ← (if isfile f changelog then
            c ← loaded f changelog txt (Some _update_changelog);
            Ok (<["changelog" := c]> (∅ : doc))
          else Ok ∅);
  data ← (if isfile f release_time then
            value ← loaded f release_time txt None;
            Ok match value with
               | VStr s =>
                   match py_int (py_strip s) with
                   | Some z => <["timestamp" := VInt z]> data
                   | None => data
                   end
               | _ => data
               end
          else Ok data);
  Ok (VDict data)
else Ok VNone.

End Statements.

(** *** The listings *)

(** A name that [_get_version_dirs] keeps: not hidden, and a directory. *)
Definition version_dir (f : filesystem) (root name : string) : bool :=
  negb (String.prefix "." name) && isdir f (os_path_join root name).

(** The filesystem calls of a scan of the entries of a directory. *)
Definition scan_events (root : string) (entries : list string)
  : list fs_event :=
  omap (λ name, if String.prefix "." name then None
                else Some (EvIsDir (os_path_join root name))) entries.

Section FamilyDirs.
Context `{Env}.

(** What [_get_family_dirs] makes of one entry of the repository
    directory. *)
Definition family_entry (f : filesystem) (location name : string)
  : option (string * option string) :=
  if isdir f (os_path_join location name) then
    if is_valid_package_name name then Some (name, None) else None
  else
    let '(name_, ext_) := os_path_splitext name in
    if bool_decide (ext_ ∈ [".py"; ".yaml"]) && is_valid_package_name name_
    then Some (name_, Some (str_tail ext_))
    else None.

End FamilyDirs.

(** ** Examples *)

Module Example.
Import Sample.

Definition repo : FileSystemPackageRepository.t :=
{| FileSystemPackageRepository.repo_id := 0;
   FileSystemPackageRepository.location := "/repo" |}.

Definition definition_file : string :=
"name: foo" +:+ nl +:+ "changelog: new" +:+ nl.

(** A repository with a split family [foo] of one version, a family [baz]
  with both a top-level definition file and a version directory, and a
  combined family [bar]. The release of [foo] is of the oldest format: its
  definition file has no timestamp, and its changelog and release time
  are in the [.metadata] directory next to the definition file. *)
Definition disk_nodes : list (string * node) :=
  [ ("/repo", Dir ["foo"; "baz"; "bar.yaml"] (st 1 100));
    ("/repo/foo", Dir ["1.0"] (st 2 200));
    ("/repo/foo/1.0", Dir ["package.yaml"; ".metadata"] (st 3 300));
    ("/repo/foo/1.0/package.yaml", File definition_file (st 4 400));
    ("/repo/foo/1.0/.metadata",
      Dir ["changelog.txt"; "release_time.txt"] (st 5 500));
    ("/repo/foo/1.0/.metadata/changelog.txt", File "old" (st 6 600));
    ("/repo/foo/1.0/.metadata/release_time.txt",
      File "1400000000" (st 7 700));
    ("/repo/baz", Dir ["package.py"; "2.0"] (st 8 800));
    ("/repo/baz/package.py", File "name: baz" (st 9 900));
    ("/repo/baz/2.0", Dir ["package.py"] (st 10 1000));
    ("/repo/baz/2.0/package.py", File "name: baz" (st 11 1100));
    ("/repo/bar.yaml", File "name: bar" (st 12 1200)) ].

Definition disk : filesystem := fs_of disk_nodes.

Definition resource (id : nat) (key : string) (vars : gmap string var)
: Resource :=
{| res_id := id; res_handle := (key, vars) |}.

Definition foo : Resource :=
resource 0 FileSystemPackageFamilyResource_key
  {[ "location" := VarStr "/repo"; "name" := VarStr "foo" ]}.

Definition baz : Resource :=
resource 1 FileSystemPackageFamilyResource_key
  {[ "location" := VarStr "/repo"; "name" := VarStr "baz" ]}.

Definition foo_1_0 : Resource :=
resource 2 FileSystemPackageResource_key
  {[ "location" := VarStr "/repo"; "name" := VarStr "foo";
     "version" := VarStr "1.0" ]}.

Definition foo_9_9 : Resource :=
resource 3 FileSystemPackageResource_key
  {[ "location" := VarStr "/repo"; "name" := VarStr "foo";
     "version" := VarStr "9.9" ]}.

Definition requires (r : string) : doc := {[ "requires" := VList [VStr r] ]}.

(** The combined family of the repository's documentation. *)
Definition pkgC : @FileSystemCombinedPackageResource.family_view versions :=
@FileSystemCombinedPackageResource.Build_family_view versions
  {[ "name" := VStr "pkgC";
     "versions" := VList [VStr "1.0"; VStr "1.1"; VStr "1.2"];
     "version_overrides" :=
       VDict {[ "1.0" := VDict (requires "python-2.5");
                "1.1+" := VDict (requires "python-2.6") ]} ]}
  (Some [ (Family [1; 0], requires "python-2.5");
          (AtLeast [1; 1], requires "python-2.6") ]).

(** A combined family whose ranges overlap: both contain version 1.1. *)
Definition pkgE : @FileSystemCombinedPackageResource.family_view versions :=
@FileSystemCombinedPackageResource.Build_family_view versions
  {[ "name" := VStr "pkgE";
     "versions" := VList [VStr "1.0"; VStr "1.1"];
     "version_overrides" :=
       VDict {[ "1+" := VDict (requires "python-2.5");
                "1.1+" := VDict (requires "python-2.6") ]} ]}
  (Some [ (AtLeast [1], requires "python-2.5");
          (AtLeast [1; 1], requires "python-2.6") ]).

(** A combined family without a list of versions. *)
Definition pkgD : @FileSystemCombinedPackageResource.family_view versions :=
@FileSystemCombinedPackageResource.Build_family_view versions
  {[ "name" := VStr "pkgD";
     "version_overrides" :=
       VDict {[ "1+" := VDict (requires "python-2.5") ]} ]}
  (Some [ (AtLeast [1], requires "python-2.5") ]).

Definition combined_package (family version : string) : Resource :=
resource 4 FileSystemCombinedPackageResource_key
  {[ "location" := VarStr "/repo"; "name" := VarStr family;
     "ext" := VarStr "yaml"; "version" := VarStr version ]}.

Definition changelog_lines : value := VList [VStr "line one"; VStr "line two"].

(** [str] of a sample version: its numbers, separated by dots. *)
Definition version_text (v : @Version versions) : string :=
String.concat "." (pretty <$> (v : list Z)).

(** The family of a directory that is not in the repository. *)
Definition gone : Resource :=
resource 5 FileSystemPackageFamilyResource_key
  {[ "location" := VarStr "/repo"; "name" := VarStr "gone" ]}.

(** The unversioned package of the family [baz]. *)
Definition baz_package : Resource :=
resource 6 FileSystemPackageResource_key
  {[ "location" := VarStr "/repo"; "name" := VarStr "baz" ]}.

(** The combined family [bar]. *)
Definition bar : Resource :=
resource 0 FileSystemCombinedPackageFamilyResource_key
  {[ "location" := VarStr "/repo"; "name" := VarStr "bar";
     "ext" := VarStr "yaml" ]}.

(** A definition file that carries its own timestamp. *)
Definition stamped_file : string :=
"name: foo" +:+ nl +:+ "timestamp: 7" +:+ nl.

Definition stamped_disk : filesystem :=
fs_of [ ("/repo/foo/1.0/package.yaml", File stamped_file (st 4 400)) ].


End Example.

(** The sample collaborators with a changelog budget of 5 characters. *)
Definition env5 : Env := Sample.env 5.

(** ** Proofs *)

Lemma length_take_string (n : nat) (s : string) :
  String.length (substring 0 n s) = Nat.min n (String.length s).
Proof.
  revert n. induction s as [|c s IH]; intros [|n]; simpl; try done.
  by rewrite IH.
Qed.

Lemma length_app_string (s t : string) :
  String.length (s +:+ t) = (String.length s + String.length t)%nat.
Proof. induction s as [|c s IH]; simpl; [done | by rewrite IH]. Qed.

Lemma str_len_app (s t : string) : str_len (s +:+ t) = str_len s + str_len t.
Proof. unfold str_len. rewrite length_app_string. lia. Qed.

Lemma str_len_slice (s : string) (n : Z) :
  0 ≤ n → n ≤ str_len s → str_len (str_slice_to s n) = n.
Proof.
  intros Hn Hs. unfold str_slice_to, str_len in *.
  destruct (Z.leb_spec 0 n); [|lia].
  rewrite length_take_string. lia.
Qed.

Lemma truthy_str_false (s : string) : truthy (VStr s) = false → s = "".
Proof.
  simpl. destruct (String.eqb_spec s ""); [done | discriminate].
Qed.

Section ChangelogProofs.
Context `{Env}.
#[local] Abbreviation maxlen := max_package_changelog_chars.

Lemma clip_spec (t : string) :
  0 ≤ maxlen →
  ∃ r, (if maxlen + 3 <? str_len t then str_slice_to t maxlen +:+ "..." else t) = r
     ∧ (str_len t ≤ maxlen + 3 → r = t)
     ∧ (maxlen + 3 < str_len t →
        r = str_slice_to t maxlen +:+ "..." ∧ str_len r = maxlen + 3).
Proof.
  intros Hmax. eexists. split; [reflexivity|].
  destruct (Z.ltb_spec (maxlen + 3) (str_len t)); split; try lia; try done.
  intros _. split; [done|].
  rewrite str_len_app, str_len_slice by lia. reflexivity.
Qed.

(** Claim C3, as amended. With a non-negative budget, for every changelog
    handed to [_update_changelog], be it a text or a non-empty list of
    lines, which is first joined with newlines: a text of more than
    budget + 3 characters is cut to its first budget characters followed
    by the 3-character marker, budget + 3 characters in all; a text of at
    most budget + 3 characters is kept as it is. *)
Theorem update_changelog_truncates file_format data c t :
  0 ≤ maxlen →
  supplied_changelog file_format data = Some c →
  changelog_text c = Some t →
  ∃ r, FileSystemPackageResource._update_changelog file_format data
       = Ok (with_changelog file_format data r)
     ∧ (str_len t ≤ maxlen + 3 → r = t)
     ∧ (maxlen + 3 < str_len t →
        r = str_slice_to t maxlen +:+ "..." ∧ str_len r = maxlen + 3).
Proof.
  intros Hmax Hsup Htext.
  destruct (clip_spec t Hmax) as (r & Hr & Hshort & Hlong).
  exists r. split; [|done].
  unfold FileSystemPackageResource._update_changelog.
  destruct (decide (file_format = yaml)) as [->|Hff].
  - destruct data as [| | |? |d]; try discriminate. simpl in Hsup.
    rewrite Hsup. simpl default.
    destruct c as [| |s|[|line lines]|]; try discriminate.
    + injection Htext as ->.
      destruct (truthy (VStr t)) eqn:Htr.
      * simpl. unfold str_len in *. 
        destruct (Z.ltb_spec (maxlen + 3) (Z.of_nat (String.length t))); simpl.
        -- by rewrite <- Hr.
        -- subst r. by rewrite insert_id.
      * apply truthy_str_false in Htr. subst t.
        simpl. rewrite Hshort, insert_id; [done..|]. unfold str_len; simpl; lia.
    + change (truthy (VList (line :: lines))) with true. cbv iota.
      unfold changelog_text in Htext.
      destruct (str_join nl (line :: lines)) as [t'|] eqn:Hj; [|discriminate].
      injection Htext as ->.
      simpl. unfold str_len in *.
      destruct (Z.ltb_spec (maxlen + 3) (Z.of_nat (String.length t))); simpl; by subst r.
  - assert (data = VStr t ∧ c = VStr t) as [-> ->].
    { destruct file_format; [|done|];
        (destruct data; simpl in Hsup; [discriminate..| |discriminate|discriminate]);
        injection Hsup as <-; simpl in Htext; by injection Htext as ->. }
    assert (with_changelog file_format (VStr t) r = VStr r) as ->.
    { by destruct file_format. }
    rewrite <- Hr. by destruct (maxlen + 3 <? str_len t).
Qed.
End ChangelogProofs.

Section CombinedProofs.
Context `{Versions}.
Import FileSystemCombinedPackageResource.

Lemma lookup_dict_update (d other : doc) (k : string) :
  dict_update d other !! k
  = match other !! k with Some x => Some x | None => d !! k end.
Proof.
  unfold dict_update. rewrite lookup_union.
  destruct (other !! k), (d !! k); reflexivity.
Qed.

Lemma lookup_merge_overrides version items (base : doc) (k : string) :
  foldl (λ data '(range_, data_),
           if contains range_ version then dict_update data data_ else data)
        base items !! k
  = match overridden version items k with
    | Some x => Some x
    | None => base !! k
    end.
Proof.
  revert base. induction items as [|[range_ data_] rest IH]; intros base.
  - reflexivity.
  - simpl. rewrite IH. destruct (overridden version rest k); [done|].
    destruct (contains range_ version); [|done].
    apply lookup_dict_update.
Qed.

Lemma dict_del_present (k : string) (d : doc) :
  is_Some (d !! k) → dict_del k d = Ok (delete k d).
Proof. intros [x Hx]. unfold dict_del. by rewrite Hx. Qed.

Lemma load_versioned parent self version :
  is_Some (data parent !! "versions") →
  mkVersion (get self "version") = Ok version →
  _load parent self
  = if overrides_truthy (version_overrides parent) then
      dict_del "version_overrides"
        (foldl (λ data '(range_, data_),
                  if contains range_ version
                  then dict_update data data_ else data)
               (versioned_base parent self)
               (default [] (version_overrides parent)))
    else Ok (versioned_base parent self).
Proof.
  intros Hv Hver. unfold _load.
  rewrite bool_decide_eq_true_2 by done.
  rewrite dict_del_present by done. simpl. rewrite Hver. reflexivity.
Qed.

(** Claim C1, as amended. For a combined-layout package whose family
    document has a [versions] key and a non-empty [version_overrides]
    mapping, loading merges the override document of every range that
    contains the package's version, in the order in which the mapping is
    iterated: a field takes its value from the last such range that sets
    it, and else from the family document; the returned document has no
    [version_overrides] key. *)
Theorem combined_load_merges_every_match parent self items version :
  is_Some (data parent !! "versions") →
  is_Some (data parent !! "version_overrides") →
  version_overrides parent = Some items →
  items ≠ [] →
  mkVersion (get self "version") = Ok version →
  ∃ d, _load parent self = Ok d
     ∧ d !! "version_overrides" = None
     ∧ ∀ k, k ≠ "version_overrides" →
         d !! k = match overridden version items k with
                  | Some x => Some x
                  | None => versioned_base parent self !! k
                  end.
Proof.
  intros Hv Ho Hitems Hne Hver.
  rewrite (load_versioned _ _ version) by done.
  rewrite Hitems. destruct items as [|item rest]; [done|].
  change (overrides_truthy (Some (item :: rest))) with true. cbv iota.
  change (default [] (Some (item :: rest))) with (item :: rest).
  eexists. split; [|split].
  - apply dict_del_present. rewrite lookup_merge_overrides.
    destruct (overridden version (item :: rest) "version_overrides"); [done|].
    unfold versioned_base.
    rewrite lookup_insert_ne, lookup_delete_ne by done. done.
  - apply lookup_delete_eq.
  - intros k Hk. rewrite lookup_delete_ne by done.
    apply lookup_merge_overrides.
Qed.

(** Claim C10. When the family document has no [versions] key, or its
    [version_overrides] is absent or empty, the loaded document keeps
    whatever the family document has under [version_overrides]; so the key
    is removed only when [versions] is present and the overrides are not
    empty. Without [versions] the loaded document is the family document,
    unchanged; with it, and a well-formed version, only [versions] is
    dropped and [version] set. *)
Theorem combined_load_keeps_overrides_key parent self :
  data parent !! "versions" = None
  ∨ overrides_truthy (version_overrides parent) = false →
  (∀ d, _load parent self = Ok d →
        d !! "version_overrides" = data parent !! "version_overrides")
  ∧ (data parent !! "versions" = None → _load parent self = Ok (data parent))
  ∧ (∀ version,
       is_Some (data parent !! "versions") →
       mkVersion (get self "version") = Ok version →
       ∃ d, _load parent self = Ok d
          ∧ d !! "version" = Some (value_of_var (get self "version"))
          ∧ d !! "versions" = None
          ∧ ∀ k, k ≠ "version" → k ≠ "versions" → d !! k = data parent !! k).
Proof.
  intros Hcase.
  assert (data parent !! "versions" = None → _load parent self = Ok (data parent))
    as Habsent.
  { intros Hv. unfold _load. rewrite bool_decide_eq_false_2; [done|].
    rewrite Hv. by intros [? ?]. }
  assert (∀ version, is_Some (data parent !! "versions") →
            mkVersion (get self "version") = Ok version →
            _load parent self = Ok (versioned_base parent self)) as Hpresent.
  { intros version Hv Hver. rewrite (load_versioned _ _ version) by done.
    destruct Hcase as [Hn| ->]; [|done]. rewrite Hn in Hv. by destruct Hv. }
  split; [|split].
  - intros d Hd. destruct (data parent !! "versions") as [vs|] eqn:Hv.
    + assert (is_Some (data parent !! "versions")) as Hsome by (by rewrite Hv).
      destruct (mkVersion (get self "version")) as [version|e] eqn:Hver.
      * rewrite (Hpresent version) in Hd by done. injection Hd as <-.
        unfold versioned_base.
        by rewrite lookup_insert_ne, lookup_delete_ne.
      * unfold _load in Hd. rewrite bool_decide_eq_true_2 in Hd by done.
        rewrite dict_del_present in Hd by done. simpl in Hd.
        rewrite Hver in Hd. discriminate.
    + rewrite Habsent in Hd by done. by injection Hd as <-.
  - done.
  - intros version Hv Hver. rewrite (Hpresent version) by done.
    eexists. split; [done|]. unfold versioned_base.
    split; [apply lookup_insert_eq|]. split.
    + rewrite lookup_insert_ne, lookup_delete_eq by done. done.
    + intros k Hk1 Hk2. by rewrite lookup_insert_ne, lookup_delete_ne.
Qed.
End CombinedProofs.

Lemma bind_run {A B} (m : M A) (k : A → M B) (w : world) :
  (m ≫= k) w = match m w with
               | (Ok a, w') => k a w'
               | (Raise e, w') => (Raise e, w')
               end.
Proof. reflexivity. Qed.

Lemma bind_run_ok {A B} (m : M A) (k : A → M B) (w w' : world) (a : A) :
  m w = (Ok a, w') → (m ≫= k) w = k a w'.
Proof. intros Hm. by rewrite bind_run, Hm. Qed.

Lemma bind_run_raise {A B} (m : M A) (k : A → M B) (w w' : world) e :
  m w = (Raise e, w') → (m ≫= k) w = (Raise e, w').
Proof. intros Hm. by rewrite bind_run, Hm. Qed.

Lemma lift_run {A} (r : res A) (w : world) : lift r w = (r, w).
Proof. reflexivity. Qed.

Lemma ret_run {A} (a : A) (w : world) : ret a w = (Ok a, w).
Proof. reflexivity. Qed.

Lemma steady_ret {A} (a : A) : steady (ret a).
Proof. intros w. split; [done|]. exists []. by rewrite app_nil_r. Qed.

Lemma steady_lift {A} (r : res A) : steady (lift r).
Proof. intros w. split; [done|]. exists []. by rewrite app_nil_r. Qed.

Lemma steady_raise {A} (e : exn) : steady (@raise A e).
Proof. intros w. split; [done|]. exists []. by rewrite app_nil_r. Qed.

Lemma steady_bind {A B} (m : M A) (k : A → M B) :
  steady m → (∀ a, steady (k a)) → steady (m ≫= k).
Proof.
  intros Hm Hk w. rewrite bind_run. specialize (Hm w).
  destruct (m w) as [[a|e] w1]; simpl in Hm; [|done].
  destruct Hm as [Hfs [evs Hevs]].
  destruct (Hk a w1) as [Hfs' [evs' Hevs']].
  split; [congruence|]. exists (evs ++ evs')%list.
  by rewrite Hevs', Hevs, app_assoc.
Qed.

Lemma steady_log {A} (r : world → res A) (e : fs_event) :
  steady (λ w, (r w, log e w)).
Proof. intros w. split; [done|]. by exists [e]. Qed.

Lemma steady_isfile p : steady (os_path_isfile p).
Proof. apply (steady_log (λ w, Ok (isfile (fs w) p))). Qed.

Lemma steady_isdir p : steady (os_path_isdir p).
Proof. apply (steady_log (λ w, Ok (isdir (fs w) p))). Qed.

Lemma steady_stat p : steady (os_stat p).
Proof. apply (steady_log (λ w, match fs w p with Some n => Ok (node_stat n) | None => Raise OSError end)). Qed.

Lemma steady_listdir p : steady (os_listdir p).
Proof. apply (steady_log (λ w, match fs w p with Some (Dir entries _) => Ok entries | _ => Raise OSError end)). Qed.

Lemma steady_read_file p : steady (read_file p).
Proof. apply (steady_log (λ w, match fs w p with Some (File content _) => Ok content | _ => Raise (LoaderError p) end)). Qed.

Lemma steady_cached_property {A} (slot : world → option A)
    (store : A → world → world) (body : M A) :
  (∀ a w, fs (store a w) = fs w ∧ trace (store a w) = trace w) →
  steady body → steady (cached_property slot store body).
Proof.
  intros Hstore Hbody w. unfold cached_property.
  destruct (slot w); [apply (steady_ret a w)|].
  specialize (Hbody w). destruct (body w) as [[a|e] w1]; simpl in *; [|done].
  destruct (Hstore a w1) as [-> ->]. done.
Qed.

Lemma steady_try_except {A} (body : M A) caught (handler : M A) :
  steady body → steady handler → steady (try_except body caught handler).
Proof.
  intros Hb Hh w. unfold try_except. specialize (Hb w).
  destruct (body w) as [[a|e] w1]; simpl in *; [done|].
  destruct (caught e); [|done].
  destruct Hb as [Hfs [evs Hevs]]. destruct (Hh w1) as [Hfs' [evs' Hevs']].
  split; [congruence|]. exists (evs ++ evs')%list.
  by rewrite Hevs', Hevs, app_assoc.
Qed.

Lemma steady_mapM {A B} (f : A → M B) (l : list A) :
  (∀ a, steady (f a)) → steady (mapM f l).
Proof.
  intros Hf. induction l as [|x l IH]; simpl.
  - apply steady_ret.
  - apply steady_bind; [done|]. intros y.
    apply steady_bind; [done|]. intros ys. apply steady_ret.
Qed.

Lemma steady_filterM {A} (f : A → M bool) (l : list A) :
  (∀ a, steady (f a)) → steady (filterM f l).
Proof.
  intros Hf. induction l as [|x l IH]; simpl.
  - apply steady_ret.
  - apply steady_bind; [done|]. intros y.
    apply steady_bind; [done|]. intros ys. apply steady_ret.
Qed.

Lemma steady_get_resource key vars :
  steady (PackageRepository.get_resource key vars).
Proof.
  intros w. unfold PackageRepository.get_resource.
  destruct (pool w !! (key, vars)); simpl; (split; [done|]);
    exists []; by rewrite app_nil_r.
Qed.

Lemma steady_get_file_from formats path name :
  steady (_get_file_from formats path name).
Proof.
  induction formats as [|f formats IH]; simpl.
  - apply steady_ret.
  - apply steady_bind; [apply steady_isfile|].
    intros [|]; [apply steady_ret | done].
Qed.

Lemma steady_get_version_dirs root :
  steady (PackageRepository._get_version_dirs root).
Proof.
  apply steady_bind.
  - apply steady_bind; [apply steady_stat|]. intros st. apply steady_ret.
  - intros key. apply steady_cached_property; [done|].
    apply steady_bind; [apply steady_listdir|]. intros names.
    apply steady_filterM. intros name.
    destruct (String.prefix "." name); [apply steady_ret | apply steady_isdir].
Qed.

Lemma getmtime_or_zero (path : string) (w : world) :
  try_except (os_path_getmtime path) is_OSError (ret 0%Qc) w
  = (Ok (mtime_or_zero (fs w) path), log (EvStat path) w).
Proof.
  unfold try_except, os_path_getmtime, mtime_or_zero.
  rewrite bind_run. unfold os_stat.
  destruct (fs w path); reflexivity.
Qed.

Section ReleaseTimeProofs.
Context `{Env}.

(** Claim C8. For a split or combined family whose directory or file
    path is [path], [get_last_release_time] returns without raising: the
    modification time of that path, or 0 when nothing can be found there.
    This holds for the repository entry point and for the method of each
    of the two family classes. *)
Theorem get_last_release_time_never_raises
    (repo : FileSystemPackageRepository.t) (family : Resource)
    (path : string) (w : world) :
  backing_path family = Ok path →
  FileSystemPackageRepository.get_last_release_time repo family w
  = (Ok (mtime_or_zero (fs w) path), log (EvStat path) w)
  ∧ (res_key family = FileSystemPackageFamilyResource_key →
     FileSystemPackageFamilyResource.get_last_release_time family w
     = (Ok (mtime_or_zero (fs w) path), log (EvStat path) w))
  ∧ (res_key family = FileSystemCombinedPackageFamilyResource_key →
     FileSystemCombinedPackageFamilyResource.get_last_release_time family w
     = (Ok (mtime_or_zero (fs w) path), log (EvStat path) w)).
Proof.
  intros Hpath.
  assert (res_key family = FileSystemPackageFamilyResource_key →
     FileSystemPackageFamilyResource.get_last_release_time family w
     = (Ok (mtime_or_zero (fs w) path), log (EvStat path) w)) as Hsplit.
  { intros Hkey. unfold backing_path in Hpath.
    rewrite decide_True in Hpath by done.
    unfold FileSystemPackageFamilyResource.get_last_release_time.
    unfold FileSystemPackageFamilyResource.path in Hpath.
    rewrite Hpath. rewrite (bind_run_ok _ _ w w path) by done.
    apply getmtime_or_zero. }
  assert (res_key family = FileSystemCombinedPackageFamilyResource_key →
     FileSystemCombinedPackageFamilyResource.get_last_release_time family w
     = (Ok (mtime_or_zero (fs w) path), log (EvStat path) w)) as Hcomb.
  { intros Hkey. unfold backing_path in Hpath.
    rewrite decide_False in Hpath by (rewrite Hkey; done).
    rewrite decide_True in Hpath by done.
    unfold FileSystemCombinedPackageFamilyResource.get_last_release_time.
    rewrite Hpath. rewrite <- (getmtime_or_zero path w).
    unfold try_except. by rewrite (bind_run_ok _ _ w w path). }
  split; [|done].
  unfold FileSystemPackageRepository.get_last_release_time.
  unfold backing_path in Hpath.
  destruct (decide (res_key family = FileSystemPackageFamilyResource_key));
    [by apply Hsplit|].
  destruct (decide (res_key family
                    = FileSystemCombinedPackageFamilyResource_key));
    [by apply Hcomb | discriminate].
Qed.
End ReleaseTimeProofs.

Lemma append_eq_empty (s t : string) : s +:+ t = "" → s = "" ∧ t = "".
Proof. destruct s; simpl; [done | discriminate]. Qed.

Lemma os_path_join_nonempty (a b : string) : b ≠ "" → os_path_join a b ≠ "".
Proof.
  intros Hb. unfold os_path_join.
  destruct (String.prefix "/" b); [done|].
  destruct (String.eqb a "" || str_endswith_char a "/").
  - intros [_ ?]%append_eq_empty. done.
  - intros [_ [? _]%append_eq_empty]%append_eq_empty. done.
Qed.

Lemma path_truthy_join (a b : string) :
  b ≠ "" → path_truthy (Some (os_path_join a b)) = true.
Proof.
  intros Hb%(os_path_join_nonempty a). simpl.
  by destruct (String.eqb_spec (os_path_join a b) "").
Qed.

Lemma get_file_run (path name : string) (w : world) :
  _get_file path name w
  = (Ok (probe (fs w) path name),
     set_trace (trace w ++ probes (fs w) path name) w).
Proof.
  unfold _get_file, probe, probes, _get_file_from.
  set (py_path := os_path_join path (name +:+ "." +:+ extension py)).
  set (yaml_path := os_path_join path (name +:+ "." +:+ extension yaml)).
  rewrite bind_run. unfold os_path_isfile at 1.
  destruct (isfile (fs w) py_path); [done|].
  rewrite bind_run. unfold os_path_isfile.
  change (fs (log (EvIsFile py_path) w)) with (fs w).
  destruct (isfile (fs w) yaml_path);
    unfold ret, mret, M_ret, log, set_trace; simpl;
    by rewrite <- app_assoc.
Qed.

Lemma set_pool_id (w : world) : set_pool (pool w) w = w.
Proof. by destruct w. Qed.


Lemma get_resource_run (key : string) (vars : gmap string var) (w : world) :
  pool_ok w →
  ∃ r P,
    PackageRepository.get_resource key vars w = (Ok r, set_pool P w)
    ∧ res_handle r = (key, vars)
    ∧ P !! (key, vars) = Some r
    ∧ pool w ⊆ P
    ∧ pool_ok (set_pool P w).
Proof.
  intros Hok. unfold PackageRepository.get_resource.
  destruct (pool w !! (key, vars)) as [r|] eqn:Hpool.
  - exists r, (pool w). rewrite set_pool_id.
    split; [done|]. split; [by apply Hok|]. done.
  - eexists _, _. split; [reflexivity|]. split; [done|].
    split; [apply lookup_insert_eq|]. split; [by apply insert_subseteq|].
    intros h r. simpl. rewrite lookup_insert.
    case_decide; [by intros [= <-]; subst | apply Hok].
Qed.

Section IterPackagesProofs.
Import FileSystemPackageFamilyResource.

(** Claim C4. [iter_packages] of a split family first probes its
    directory for [package.py], then [package.yaml]; these probes are the
    first filesystem calls of the run. When one of the two files exists,
    no further call is made, the listing cache is untouched, and the
    result is exactly one package, whose handle has no version, whatever
    version directories there are. *)
Theorem iter_packages_probes_first (self : Resource) (p : string)
    (w : world) :
  pool_ok w →
  path self = Ok p →
  ∃ r w' rest,
    iter_packages self w = (r, w')
    ∧ trace w' = (trace w ++ probes (fs w) p "package" ++ rest)%list
    ∧ (isfile (fs w) (os_path_join p "package.py")
       || isfile (fs w) (os_path_join p "package.yaml") = true →
       rest = [] ∧ listdir_memo w' = listdir_memo w
       ∧ ∃ package,
           r = Ok [package]
           ∧ res_handle package
             = (FileSystemPackageResource_key,
                {[ "location" := location self; "name" := name self ]})
           ∧ get package "version" = VarNone).
Proof.
  intros Hok Hpath. unfold iter_packages. rewrite Hpath.
  rewrite (bind_run_ok _ _ w w p) by done.
  rewrite (bind_run_ok _ _ _ _ _ (get_file_run p "package" w)).
  set (w1 := set_trace _ w).
  assert (pool_ok w1) as Hok1 by done.
  unfold probe. change ("package" +:+ "." +:+ extension py) with "package.py".
  change ("package" +:+ "." +:+ extension yaml) with "package.yaml".
  assert (∀ q fmt, q ≠ "" →
    isfile (fs w) (os_path_join p "package.py")
    || isfile (fs w) (os_path_join p "package.yaml") = true →
    ∃ r w' rest,
      (let '(filepath, _) := (Some (os_path_join p q), fmt : option FileFormat) in
       if path_truthy filepath
       then PackageRepository.get_resource FileSystemPackageResource_key
              {[ "location" := location self; "name" := name self ]}
            ≫= λ package, ret [package]
       else lift (Ok p) ≫= λ p0, PackageRepository._get_version_dirs p0
            ≫= λ dirs, mapM (λ version_str,
                 PackageRepository.get_resource FileSystemPackageResource_key
                   {[ "location" := location self; "name" := name self;
                      "version" := VarStr version_str ]}) dirs) w1 = (r, w')
      ∧ trace w' = (trace w ++ probes (fs w) p "package" ++ rest)%list
      ∧ (isfile (fs w) (os_path_join p "package.py")
         || isfile (fs w) (os_path_join p "package.yaml") = true →
         rest = [] ∧ listdir_memo w' = listdir_memo w
         ∧ ∃ package, r = Ok [package]
           ∧ res_handle package
             = (FileSystemPackageResource_key,
                {[ "location" := location self; "name" := name self ]})
           ∧ get package "version" = VarNone)) as Hfound.
  { intros q fmt Hq _. rewrite path_truthy_join by done.
    destruct (get_resource_run FileSystemPackageResource_key
                {[ "location" := location self; "name" := name self ]} w1 Hok1)
      as (package & P & Hrun & Hhandle & _).
    rewrite (bind_run_ok _ _ _ _ _ Hrun).
    eexists _, _, []. split; [reflexivity|].
    split; [simpl; by rewrite app_nil_r|]. intros _.
    split; [done|]. split; [done|]. exists package.
    split; [done|]. split; [done|].
    unfold get, variables. by rewrite Hhandle. }
  destruct (isfile (fs w) (os_path_join p "package.py")) eqn:Hpy;
    [|destruct (isfile (fs w) (os_path_join p "package.yaml")) eqn:Hyaml].
  - by apply (Hfound "package.py" (Some py)).
  - by apply (Hfound "package.yaml" (Some yaml)).
  - simpl path_truthy. cbv iota.
    match goal with |- ∃ r w' rest, ?m w1 = _ ∧ _ => 
      assert (steady m) as Hsteady end.
    { apply steady_bind; [apply steady_lift|]. intros p0.
      apply steady_bind; [apply steady_get_version_dirs|]. intros dirs.
      apply steady_mapM. intros v. apply steady_get_resource. }
    destruct (Hsteady w1) as [_ [rest Hrest]].
    match goal with |- ∃ r w' rest, ?m w1 = _ ∧ _ => 
      destruct (m w1) as [r w'] eqn:Hrun end.
    exists r, w', rest. split; [done|]. simpl in Hrest.
    split; [by rewrite Hrest, <- app_assoc|]. done.
Qed.
End IterPackagesProofs.

Section FamilyProofs.
Context `{Env}.
Import FileSystemPackageRepository.

Lemma get_family_body_run (repo : t) (name : string) (w : world) :
  pool_ok w →
  ∃ r w', _get_family__body repo name w = (r, w')
        ∧ family_resolution repo name (fs w) r.
Proof.
  intros Hok. unfold _get_family__body, family_resolution. cbv zeta.
  destruct (is_valid_package_name name) eqn:Hvalid.
  2: { eexists _, _. split; [reflexivity|]. split; [done|]. discriminate. }
  rewrite (bind_run_ok _ _ w w ()) by done.
  rewrite bind_run. unfold os_path_isdir at 1.
  set (w1 := log _ w). assert (pool_ok w1) as Hok1 by done.
  destruct (isdir (fs w) (os_path_join (location repo) name)) eqn:Hdir.
  - destruct (get_resource_run FileSystemPackageFamilyResource_key
      {[ "location" := VarStr (location repo); "name" := VarStr name ]}
      w1 Hok1) as (family & P & Hrun & Hhandle & _).
    rewrite (bind_run_ok _ _ _ _ _ Hrun).
    eexists _, _. split; [reflexivity|]. split; [discriminate|].
    intros _. split; [eauto|]. repeat split; discriminate.
  - rewrite (bind_run_ok _ _ _ _ _ (get_file_run _ _ w1)).
    set (w2 := set_trace _ w1). assert (pool_ok w2) as Hok2 by exact Hok.
    unfold probe. change (fs w1) with (fs w).
    change (extension py) with "py". change (extension yaml) with "yaml".
    assert (name +:+ "." +:+ "py" ≠ "") as Hpy_ne.
    { intros [? ?]%append_eq_empty. done. }
    assert (name +:+ "." +:+ "yaml" ≠ "") as Hyaml_ne.
    { intros [? ?]%append_eq_empty. done. }
    destruct (isfile (fs w) (os_path_join (location repo)
                (name +:+ "." +:+ "py"))) eqn:Hpy;
      [|destruct (isfile (fs w) (os_path_join (location repo)
                    (name +:+ "." +:+ "yaml"))) eqn:Hyaml].
    + rewrite path_truthy_join by done.
      rewrite (bind_run_ok _ _ w2 w2 py) by done.
      destruct (get_resource_run FileSystemCombinedPackageFamilyResource_key
        {[ "location" := VarStr (location repo); "name" := VarStr name;
           "ext" := VarStr (extension py) ]} w2 Hok2)
        as (family & P & Hrun & Hhandle & _).
      rewrite (bind_run_ok _ _ _ _ _ Hrun).
      eexists _, _. split; [reflexivity|]. split; [discriminate|].
      intros _. split; [discriminate|]. split; [eauto|].
      split; discriminate.
    + rewrite path_truthy_join by done.
      rewrite (bind_run_ok _ _ w2 w2 yaml) by done.
      destruct (get_resource_run FileSystemCombinedPackageFamilyResource_key
        {[ "location" := VarStr (location repo); "name" := VarStr name;
           "ext" := VarStr (extension yaml) ]} w2 Hok2)
        as (family & P & Hrun & Hhandle & _).
      rewrite (bind_run_ok _ _ _ _ _ Hrun).
      eexists _, _. split; [reflexivity|]. split; [discriminate|].
      intros _. split; [discriminate|]. split; [discriminate|].
      split; [eauto | discriminate].
    + eexists _, _. split; [reflexivity|]. split; [discriminate|].
      intros _. repeat split; done || discriminate.
Qed.

Lemma get_family_body_memo (repo : t) (name : string) (w : world) :
  family_memo (_get_family__body repo name w).2 = family_memo w.
Proof.
  unfold _get_family__body.
  destruct (is_valid_package_name name); [|done].
  rewrite (bind_run_ok _ _ w w ()) by done.
  rewrite bind_run. unfold os_path_isdir at 1. cbv iota beta.
  destruct (isdir _ _).
  - rewrite bind_run. unfold PackageRepository.get_resource.
    by destruct (pool _ !! _).
  - rewrite bind_run, get_file_run. cbv iota beta.
    destruct (probe _ _ _) as [filepath fmt].
    destruct (path_truthy filepath); [|done].
    destruct fmt as [f|]; [|done].
    rewrite bind_run, ret_run. cbv iota beta.
    rewrite bind_run. unfold PackageRepository.get_resource.
    by destruct (pool _ !! _).
Qed.

(** Claim C5, as amended. A name that the repository has resolved before
    gets the remembered answer, [None] included, with no look at the
    filesystem. A name that it has not resolved before raises
    [InvalidName] when it is invalid; a valid one gives the split family
    when the directory [location/name] exists, else the combined family
    with extension [py] when the file [name.py] exists, else the one with
    extension [yaml] when [name.yaml] exists, else [None]; a returned
    answer is remembered, a raised error is not. *)
Theorem get_package_family_resolution (repo : t) (name : string)
    (w : world) :
  pool_ok w →
  (∀ r, family_memo w !! _get_family__key repo name = Some r →
        get_package_family repo name w = (Ok r, w))
  ∧ (family_memo w !! _get_family__key repo name = None →
     ∃ r w',
       get_package_family repo name w = (r, w')
       ∧ family_resolution repo name (fs w) r
       ∧ (∀ family, r = Ok family →
            family_memo w' !! _get_family__key repo name = Some family)
       ∧ (∀ e, r = Raise e → family_memo w' = family_memo w)).
Proof.
  intros Hok. unfold get_package_family, _get_family, cached_property.
  split.
  - by intros r ->.
  - intros Hmiss.
    destruct (get_family_body_run repo name w Hok) as (r & w1 & Hrun & Hres).
    pose proof (get_family_body_memo repo name w) as Hmemo.
    rewrite Hrun in Hmemo. cbn in Hmemo.
    rewrite Hmiss, Hrun. destruct r as [family|e].
    + eexists _, _. split; [reflexivity|]. split; [done|].
      split; [|done]. intros ? [= <-]. cbn. apply lookup_insert_eq.
    + eexists _, _. split; [reflexivity|]. split; [done|].
      split; [done|]. by intros _ _.
Qed.
End FamilyProofs.

Lemma nme_ret {A} (a : A) : no_metadata_error (ret a).
Proof. by intros w. Qed.

Lemma nme_lift {A} (r : res A) :
  r ≠ Raise PackageMetadataError → no_metadata_error (lift r).
Proof. by intros Hr w. Qed.

Lemma nme_raise {A} (e : exn) :
  e ≠ PackageMetadataError → no_metadata_error (@raise A e).
Proof. intros He w. simpl. congruence. Qed.

Lemma nme_bind {A B} (m : M A) (k : A → M B) :
  no_metadata_error m → (∀ a, no_metadata_error (k a)) →
  no_metadata_error (m ≫= k).
Proof.
  intros Hm Hk w. rewrite bind_run. specialize (Hm w).
  destruct (m w) as [[a|e] w1]; [apply Hk|].
  simpl in *. intros [= ->]. by apply Hm.
Qed.

Lemma nme_log {A} (r : world → res A) (e : fs_event) :
  (∀ w, r w ≠ Raise PackageMetadataError) →
  no_metadata_error (λ w, (r w, log e w)).
Proof. intros Hr w. apply Hr. Qed.

Lemma nme_isfile p : no_metadata_error (os_path_isfile p).
Proof. by intros w. Qed.

Lemma nme_isdir p : no_metadata_error (os_path_isdir p).
Proof. by intros w. Qed.

Lemma nme_read_file p : no_metadata_error (read_file p).
Proof. intros w. unfold read_file. simpl. by destruct (fs w p) as [[]|]. Qed.

Lemma nme_cached_property {A} (slot : world → option A)
    (store : A → world → world) (body : M A) :
  no_metadata_error body → no_metadata_error (cached_property slot store body).
Proof.
  intros Hbody w. unfold cached_property. destruct (slot w); [done|].
  specialize (Hbody w). by destruct (body w) as [[a|e] w1].
Qed.

Lemma nme_get_file path name : no_metadata_error (_get_file path name).
Proof. intros w. by rewrite get_file_run. Qed.

Lemma str_join_raises (sep : string) (items : list value) (e : exn) :
  str_join sep items = Raise e → e = TypeError.
Proof.
  induction items as [|item items IH]; simpl; [done|].
  destruct item; try by intros [= <-].
  destruct items as [|item' items]; [done|].
  destruct (str_join sep (item' :: items)); [done|].
  intros [= <-]. by apply IH.
Qed.

Section LoadingProofs.
Context `{Env}.
Import FileSystemPackageResource.

Lemma update_changelog_no_metadata_error file_format data :
  _update_changelog file_format data ≠ Raise PackageMetadataError.
Proof.
  unfold _update_changelog.
  destruct (decide (file_format = yaml)).
  - destruct data as [| | | |d]; try done.
    destruct (truthy _); [|done].
    destruct (default VNone (d !! "changelog")) as [| |s|l|d']; simpl; try done.
    + by destruct (_ <? _).
    + destruct (str_join nl l) as [t|e'] eqn:Hjoin; simpl.
      * by destruct (_ <? _); simpl.
      * by rewrite (str_join_raises _ _ _ Hjoin).
    + by destruct (_ <? _).
  - destruct data; try done. by destruct (_ <? _).
Qed.

Lemma nme_load_from_file filepath format_ callback :
  (∀ cb, callback = Some cb → cb = _update_changelog) →
  no_metadata_error (load_from_file filepath format_ callback).
Proof.
  intros Hcb. unfold load_from_file.
  apply nme_bind; [apply nme_read_file|]. intros content.
  apply nme_bind.
  - apply nme_lift. destruct format_; try done;
      by destruct (load_structured _ content).
  - intros result. destruct callback as [cb|]; [|apply nme_ret].
    rewrite (Hcb cb) by done. apply nme_lift.
    apply update_changelog_no_metadata_error.
Qed.

Lemma nme_filepath_and_format self :
  no_metadata_error (_filepath_and_format self).
Proof.
  apply nme_cached_property. apply nme_bind.
  - apply nme_lift. unfold path.
    destruct (as_path (location self)) as [l|e] eqn:Hl; simpl.
    2: { destruct (location self); simpl in Hl; congruence. }
    destruct (as_path (name self)) as [n|e] eqn:Hn; simpl.
    2: { destruct (name self); simpl in Hn; congruence. }
    destruct (var_truthy _); [|done].
    destruct (get self "version"); done.
  - intros p. apply nme_get_file.
Qed.

Lemma nme_load_old_formats self : no_metadata_error (_load_old_formats self).
Proof.
  unfold _load_old_formats.
  apply nme_bind.
  { apply nme_bind; [apply nme_filepath_and_format|]. intros v. apply nme_ret. }
  intros u. apply nme_bind.
  { destruct u; [apply nme_ret | by apply nme_raise]. }
  intros path. apply nme_bind; [apply nme_isfile|]. intros [|].
  { apply nme_load_from_file. by intros cb [= <-]. }
  apply nme_bind; [apply nme_isdir|]. intros [|]; [|apply nme_ret].
  apply nme_bind; [apply nme_isfile|]. intros b1.
  apply nme_bind.
  { destruct b1; [|apply nme_ret]. apply nme_bind.
    - apply nme_load_from_file. by intros cb [= <-].
    - intros c. apply nme_ret. }
  intros data. apply nme_bind; [apply nme_isfile|]. intros b2.
  apply nme_bind; [|intros; apply nme_ret].
  destruct b2; [|apply nme_ret]. apply nme_bind.
  - by apply nme_load_from_file.
  - intros [| |s| |]; try apply nme_ret.
    destruct (py_int (py_strip s)); apply nme_ret.
Qed.

Lemma probe_none (f : filesystem) (p name : string) :
  (probe f p name).1 = None
  ↔ isfile f (os_path_join p (name +:+ "." +:+ "py")) = false
    ∧ isfile f (os_path_join p (name +:+ "." +:+ "yaml")) = false.
Proof.
  unfold probe. change (extension py) with "py".
  change (extension yaml) with "yaml".
  destruct (isfile f (os_path_join p (name +:+ "." +:+ "py")));
    destruct (isfile f (os_path_join p (name +:+ "." +:+ "yaml")));
    simpl; split; (done || by intros []).
Qed.

Lemma filepath_and_format_run self p w :
  path self = Ok p →
  filepath_current w self p →
  ∃ w1, _filepath_and_format self w = (Ok (probe (fs w) p "package"), w1)
      ∧ fs w1 = fs w
      ∧ filepath_memo w1 !! res_id self = Some (probe (fs w) p "package").
Proof.
  intros Hpath Hcur. unfold _filepath_and_format, cached_property.
  destruct (filepath_memo w !! res_id self) as [v|] eqn:Hmemo.
  - rewrite (Hcur v) in * by done. eauto.
  - rewrite Hpath. rewrite (bind_run_ok _ _ w w p) by done.
    rewrite get_file_run. eexists. split; [reflexivity|].
    split; [done|]. simpl. apply lookup_insert_eq.
Qed.

Lemma load_raises_iff_no_filepath (self : Resource)
    (found : option string * option FileFormat) (w w1 : world) :
  _filepath_and_format self w = (Ok found, w1) →
  (∃ w', _load self w = (Raise PackageMetadataError, w')) ↔ found.1 = None.
Proof.
  intros Hrun. unfold _load, filepath.
  rewrite (bind_run_ok _ _ _ _ _
             (bind_run_ok _ _ _ _ _ Hrun : (_ ≫= λ v, ret v.1) w = _)).
  destruct found.1 as [fp|].
  - split; [|done]. intros [w' Hraise]. exfalso.
    revert Hraise.
    match goal with |- ?m w1 = _ → _ =>
      assert (no_metadata_error m) as Hnme end.
    { apply nme_bind.
      { apply nme_bind; [apply nme_filepath_and_format|].
        intros; apply nme_ret. }
      intros fmt. apply nme_bind.
      { destruct fmt; [apply nme_ret | by apply nme_raise]. }
      intros format_. apply nme_bind; [by apply nme_load_from_file|].
      intros [| | | |data]; try by apply nme_raise.
      destruct (bool_decide _); [|apply nme_ret].
      apply nme_bind; [apply nme_load_old_formats|]. intros data_.
      destruct (truthy data_); [|apply nme_ret].
      destruct data_; try by apply nme_raise. apply nme_ret. }
    intros Hraise. specialize (Hnme w1). by rewrite Hraise in Hnme.
  - split; [done|]. intros _. eexists. reflexivity.
Qed.

(** Claim C6, as amended. Resolving a package resource always succeeds,
    makes no filesystem call and probes nothing. Loading the document of
    a split-layout package with path [p] raises [PackageMetadataError]
    exactly when the probe for its definition file found nothing: for a
    package that has not been probed yet, when neither [p/package.py]
    nor [p/package.yaml] is a file at load time; for a package that has
    been probed, when that first probe found nothing, whatever is on disk
    at load time. *)
Theorem load_raises_iff_probe_found_nothing (self : Resource) (p : string)
    (w : world) :
  path self = Ok p →
  (∀ variables w0, ∃ package w0',
      PackageRepository.get_resource key variables w0 = (Ok package, w0')
      ∧ trace w0' = trace w0
      ∧ filepath_memo w0' = filepath_memo w0)
  ∧ (filepath_memo w !! res_id self = None →
     ((∃ w', _load self w = (Raise PackageMetadataError, w'))
      ↔ isfile (fs w) (os_path_join p "package.py") = false
        ∧ isfile (fs w) (os_path_join p "package.yaml") = false))
  ∧ (∀ found, filepath_memo w !! res_id self = Some found →
     ((∃ w', _load self w = (Raise PackageMetadataError, w'))
      ↔ found.1 = None)).
Proof.
  intros Hpath. split; [|split].
  - intros variables w0. unfold PackageRepository.get_resource.
    destruct (pool w0 !! _); eauto.
  - intros Hmiss. rewrite <- (probe_none (fs w) p "package").
    destruct (filepath_and_format_run self p w Hpath)
      as (w1 & Hrun & _).
    { intros v. by rewrite Hmiss. }
    by apply (load_raises_iff_no_filepath self _ w w1).
  - intros found Hhit.
    apply (load_raises_iff_no_filepath self found w w).
    unfold _filepath_and_format, cached_property. by rewrite Hhit.
Qed.
End LoadingProofs.

Lemma isfile_run (p : string) (w : world) :
  os_path_isfile p w = (Ok (isfile (fs w) p), log (EvIsFile p) w).
Proof. reflexivity. Qed.

Lemma isdir_run (p : string) (w : world) :
  os_path_isdir p w = (Ok (isdir (fs w) p), log (EvIsDir p) w).
Proof. reflexivity. Qed.

Lemma fs_log (e : fs_event) (w : world) : fs (log e w) = fs w.
Proof. reflexivity. Qed.

Section LegacyProofs.
Context `{Env}.
Import FileSystemPackageResource.

Lemma load_from_file_run filepath format_ callback (w : world) :
  load_from_file filepath format_ callback w
  = (loaded (fs w) filepath format_ callback, log (EvRead filepath) w).
Proof.
  unfold load_from_file, loaded. rewrite bind_run. unfold read_file.
  destruct (fs w filepath) as [[content st|entries st]|]; try done.
  rewrite bind_run, lift_run.
  destruct (match format_ with txt => _ | _ => _ end) as [result|e]; [|done].
  simpl. by destruct callback.
Qed.

Lemma steady_uri self : steady (uri self).
Proof.
  apply steady_bind; [|intros; apply steady_ret].
  apply steady_cached_property; [done|].
  apply steady_bind; [apply steady_lift|]. intros p.
  apply steady_get_file_from.
Qed.

Lemma load_old_formats_run self path (w w1 : world) :
  uri self w = (Ok (Some path), w1) →
  ∃ w', _load_old_formats self w = (recovered_fields (fs w) path, w')
      ∧ fs w' = fs w.
Proof.
  intros Huri. pose proof (steady_uri self w) as [Hfs _].
  rewrite Huri in Hfs. simpl in Hfs.
  unfold _load_old_formats, recovered_fields.
  rewrite (bind_run_ok _ _ _ _ _ Huri).
  rewrite (bind_run_ok _ _ w1 w1 path) by done.
  rewrite bind_run, isfile_run, Hfs.
  destruct (isfile (fs w) (os_path_join path "release.yaml")).
  { rewrite load_from_file_run, fs_log, Hfs. eauto. }
  rewrite bind_run, isdir_run, fs_log, Hfs.
  destruct (isdir (fs w) (os_path_join path ".metadata")); [|eauto].
  rewrite bind_run, isfile_run, !fs_log, Hfs.
  set (changelog := os_path_join _ "changelog.txt").
  set (release_time := os_path_join _ "release_time.txt").
  set (w2 := log (EvIsFile changelog) _).
  assert (fs w2 = fs w) as Hfs2 by done.
  assert (∃ w3,
    (if isfile (fs w) changelog
     then load_from_file changelog txt (Some _update_changelog)
          ≫= λ c, ret (<["changelog" := c]> (∅ : doc))
     else ret ∅) w2
    = ((if isfile (fs w) changelog
        then loaded (fs w) changelog txt (Some _update_changelog)
             ≫= λ c, Ok (<["changelog" := c]> (∅ : doc))
        else Ok ∅), w3) ∧ fs w3 = fs w) as (w3 & Hstep & Hfs3).
  { destruct (isfile (fs w) changelog); [|eauto].
    rewrite bind_run, load_from_file_run, Hfs2.
    destruct (loaded (fs w) changelog txt _); eauto. }
  rewrite bind_run, Hstep. clear Hstep.
  match goal with |- context [mbind _ ?r] =>
    match type of r with res doc => destruct r as [data|e] end end;
    [|eauto].
  simpl mbind.
  rewrite bind_run, isfile_run, Hfs3.
  destruct (isfile (fs w) release_time); [|eauto].
  rewrite bind_run, bind_run, load_from_file_run, fs_log, Hfs3.
  destruct (loaded (fs w) release_time txt None) as [value|e]; [|eauto].
  simpl. destruct value as [| |s| |]; eauto.
  destruct (py_int (py_strip s)); eauto.
Qed.

End LegacyProofs.

Section MergeProofs.
Context `{Env}.
Import FileSystemPackageResource.

Lemma filepath_and_format_cached self v (w : world) :
  filepath_memo w !! res_id self = Some v →
  _filepath_and_format self w = (Ok v, w).
Proof.
  intros Hmemo. unfold _filepath_and_format, cached_property.
  by rewrite Hmemo.
Qed.

Lemma probe_format (f : filesystem) (p name fp : string) (fmt : FileFormat) :
  probe f p name = (Some fp, Some fmt) → fmt ≠ txt.
Proof.
  unfold probe. destruct (isfile f _); [by intros [= _ <-]|].
  destruct (isfile f _); [by intros [= _ <-] | discriminate].
Qed.

End MergeProofs.






Lemma later_refl (w : world) : later w w.
Proof. done. Qed.


Lemma get_resource_hit key vars r (w : world) :
  pool w !! (key, vars) = Some r →
  PackageRepository.get_resource key vars w = (Ok r, w).
Proof. intros Hpool. unfold PackageRepository.get_resource. by rewrite Hpool. Qed.

Lemma cached_property_stored {A} (slot : world → option A)
    (store : A → world → world) (body : M A) (a : A) (w w1 : world) :
  (∀ a w, slot (store a w) = Some a) →
  cached_property slot store body w = (Ok a, w1) → slot w1 = Some a.
Proof.
  intros Hstore. unfold cached_property.
  destruct (slot w) eqn:Hslot; [by intros [= <- <-]|].
  destruct (body w) as [[a'|e] w']; [|done]. by intros [= <- <-].
Qed.

Lemma cached_property_hit {A} (slot : world → option A)
    (store : A → world → world) (body : M A) (a : A) (w : world) :
  slot w = Some a → cached_property slot store body w = (Ok a, w).
Proof. intros Hslot. unfold cached_property. by rewrite Hslot. Qed.


Section RegistryProofs.
Context `{Env}.




End RegistryProofs.

(** ** Further properties of the module *)

(** *** The file probe and the listing of version directories *)

(** Property X1. [_get_file] never raises and leaves the filesystem as it is.
    It tests [name.py] first: when that file exists it is returned with the
    format [py] after this single test; otherwise [name.yaml] is tested as
    well, and returned with the format [yaml] when it exists, else the result
    is [(None, None)]. *)
Theorem get_file_py_before_yaml (path name : string) (w : world) :
  ∃ found w',
    _get_file path name w = (Ok found, w')
    ∧ fs w' = fs w
    ∧ (isfile (fs w) (os_path_join path (name +:+ ".py")) = true →
       found = (Some (os_path_join path (name +:+ ".py")), Some py)
       ∧ trace w'
         = (trace w ++ [EvIsFile (os_path_join path (name +:+ ".py"))])%list)
    ∧ (isfile (fs w) (os_path_join path (name +:+ ".py")) = false →
       trace w'
       = (trace w ++ [EvIsFile (os_path_join path (name +:+ ".py"));
                      EvIsFile (os_path_join path (name +:+ ".yaml"))])%list
       ∧ found
         = (if isfile (fs w) (os_path_join path (name +:+ ".yaml"))
            then (Some (os_path_join path (name +:+ ".yaml")), Some yaml)
            else (None, None))).
Proof.
  rewrite get_file_run.
  eexists _, _. split; [reflexivity|]. split; [reflexivity|].
  unfold probe, probes.
  change (os_path_join path (name +:+ "." +:+ extension py))
    with (os_path_join path (name +:+ ".py")).
  change (os_path_join path (name +:+ "." +:+ extension yaml))
    with (os_path_join path (name +:+ ".yaml")).
  destruct (isfile (fs w) (os_path_join path (name +:+ ".py")));
    split; intros; done.
Qed.

Lemma scan_run (root : string) (entries : list string) (w : world) :
  filterM (λ name,
    if String.prefix "." name then ret false
    else os_path_isdir (os_path_join root name)) entries w
  = (Ok (List.filter (version_dir (fs w) root) entries),
     set_trace (trace w ++ scan_events root entries) w).
Proof.
  revert w. induction entries as [|name entries IH]; intros w.
  - simpl. unfold ret, mret, M_ret. f_equal.
    rewrite app_nil_r. by destruct w.
  - assert (scan_events root (name :: entries)
            = (if String.prefix "." name then []
               else [EvIsDir (os_path_join root name)])
              ++ scan_events root entries)%list as ->.
    { unfold scan_events. cbn [omap list_omap].
      by destruct (String.prefix "." name). }
    cbn [filterM List.filter]. unfold version_dir at 1.
    rewrite bind_run.
    destruct (String.prefix "." name) eqn:Hhidden.
    + cbn [negb andb]. rewrite ret_run. cbv iota beta.
      rewrite bind_run, IH. reflexivity.
    + cbn [negb andb]. rewrite isdir_run. cbv iota beta.
      rewrite bind_run, IH.
      change (fs (log _ w)) with (fs w).
      destruct (isdir (fs w) (os_path_join root name));
        unfold ret, mret, M_ret, log, set_trace; cbn;
        by rewrite <- app_assoc.
Qed.

Section VersionDirs.
Import PackageRepository.

Lemma get_version_dirs_miss (root : string) (entries : list string)
    (st : stat_result) (w : world) :
  fs w root = Some (Dir entries st) →
  listdir_memo w !! (root, st_ino st, st_mtime st) = None →
  ∃ w',
    _get_version_dirs root w
    = (Ok (List.filter (version_dir (fs w) root) entries), w')
    ∧ listdir_memo w'
      = <[(root, st_ino st, st_mtime st) :=
            List.filter (version_dir (fs w) root) entries]> (listdir_memo w)
    ∧ trace w'
      = (trace w ++ EvStat root :: EvListDir root
                    :: scan_events root entries)%list.
Proof.
  intros Hdir Hmiss. unfold _get_version_dirs, _get_version_dirs__key.
  rewrite !bind_run. unfold os_stat. rewrite Hdir. cbn [node_stat].
  rewrite ret_run. unfold cached_property.
  change (listdir_memo (log (EvStat root) w)) with (listdir_memo w).
  rewrite Hmiss. unfold _get_version_dirs__body.
  rewrite bind_run. unfold os_listdir.
  change (fs (log (EvStat root) w)) with (fs w). rewrite Hdir.
  rewrite scan_run. eexists. split; [reflexivity|].
  split; [reflexivity|]. cbn. by rewrite <- !app_assoc.
Qed.

Lemma get_version_dirs_fails (root : string) (w : world) :
  isdir (fs w) root = false →
  (∀ node, fs w root = Some node →
     listdir_memo w !! (root, st_ino (node_stat node),
                        st_mtime (node_stat node)) = None) →
  ∃ w', _get_version_dirs root w = (Raise OSError, w')
      ∧ listdir_memo w' = listdir_memo w.
Proof.
  intros Hdir Hmiss. unfold _get_version_dirs, _get_version_dirs__key.
  rewrite !bind_run. unfold os_stat.
  destruct (fs w root) as [node|] eqn:Hnode; [|eauto].
  rewrite ret_run. unfold cached_property.
  change (listdir_memo (log (EvStat root) w)) with (listdir_memo w).
  rewrite (Hmiss node eq_refl). unfold _get_version_dirs__body.
  rewrite bind_run. unfold os_listdir.
  change (fs (log (EvStat root) w)) with (fs w). rewrite Hnode.
  unfold isdir in Hdir. rewrite Hnode in Hdir.
  destruct node; [eauto | discriminate].
Qed.

(** Property X2. On a directory that is not in the listing cache,
    [_get_version_dirs] returns, in the order of the listing, exactly the
    entries that do not start with a dot and are directories; it stores that
    list under the key (root, inode, mtime), and after the stat and the
    listing it calls [isdir] on the entries that are not hidden and on nothing
    else. *)
Theorem get_version_dirs_scan (root : string) (entries : list string)
    (st : stat_result) (w : world) :
  fs w root = Some (Dir entries st) →
  listdir_memo w !! (root, st_ino st, st_mtime st) = None →
  ∃ w',
    _get_version_dirs root w
    = (Ok (List.filter (version_dir (fs w) root) entries), w')
    ∧ listdir_memo w'
      = <[(root, st_ino st, st_mtime st) :=
            List.filter (version_dir (fs w) root) entries]> (listdir_memo w)
    ∧ trace w'
      = (trace w ++ EvStat root :: EvListDir root
                    :: scan_events root entries)%list.
Proof. apply get_version_dirs_miss. Qed.

(** Property X3. When the root does not exist or is not a directory, and the
    cache has nothing for it, [_get_version_dirs] raises [OSError] and stores
    nothing in the cache. *)
Theorem get_version_dirs_not_a_directory (root : string) (w : world) :
  isdir (fs w) root = false →
  (∀ node, fs w root = Some node →
     listdir_memo w !! (root, st_ino (node_stat node),
                        st_mtime (node_stat node)) = None) →
  ∃ w', _get_version_dirs root w = (Raise OSError, w')
      ∧ listdir_memo w' = listdir_memo w.
Proof. apply get_version_dirs_fails. Qed.

Lemma get_version_dirs_stored (root : string) (dirs : list string)
    (node : node) (w w1 : world) :
  fs w root = Some node →
  _get_version_dirs root w = (Ok dirs, w1) →
  listdir_memo w1 !! (root, st_ino (node_stat node), st_mtime (node_stat node))
  = Some dirs.
Proof.
  intros Hnode. unfold _get_version_dirs, _get_version_dirs__key.
  rewrite !bind_run. unfold os_stat. rewrite Hnode, ret_run.
  intros Hrun. apply cached_property_stored in Hrun; [done|].
  intros a w0. cbn. apply lookup_insert_eq.
Qed.

(** Property X4. Once [_get_version_dirs] has listed a directory, a later call
    for the same path whose stat reports the same inode and modification time
    returns the stored list after the stat call alone: the directory is not
    listed again, whatever it holds by then. *)
Theorem get_version_dirs_memoized (root : string) (dirs : list string)
    (node node2 : node) (w w1 w2 : world) :
  fs w root = Some node →
  _get_version_dirs root w = (Ok dirs, w1) →
  listdir_memo w1 ⊆ listdir_memo w2 →
  fs w2 root = Some node2 →
  node_stat node2 = node_stat node →
  _get_version_dirs root w2 = (Ok dirs, log (EvStat root) w2).
Proof.
  intros Hnode Hrun Hsub Hnode2 Hstat.
  pose proof (get_version_dirs_stored _ _ _ _ _ Hnode Hrun) as Hstored.
  unfold _get_version_dirs, _get_version_dirs__key.
  rewrite !bind_run. unfold os_stat. rewrite Hnode2, ret_run, Hstat.
  apply cached_property_hit.
  change (listdir_memo (log (EvStat root) w2)) with (listdir_memo w2).
  by eapply lookup_weaken.
Qed.

End VersionDirs.

(** *** The packages of a split family *)

Lemma mapM_get_resource_handles {A} key (vars : A → gmap string var)
    (l : list A) (w : world) :
  pool_ok w →
  ∃ pkgs P,
    mapM (λ v, PackageRepository.get_resource key (vars v)) l w
    = (Ok pkgs, set_pool P w)
    ∧ res_handle <$> pkgs = (λ v, (key, vars v)) <$> l
    ∧ pool_ok (set_pool P w)
    ∧ pool w ⊆ P
    ∧ ∀ package, package ∈ pkgs → P !! res_handle package = Some package.
Proof.
  revert w. induction l as [|v l IH]; intros w Hok.
  - exists [], (pool w). rewrite set_pool_id. cbn.
    repeat split; try done. intros package Hin. by apply elem_of_nil in Hin.
  - cbn [mapM]. rewrite bind_run.
    destruct (get_resource_run key (vars v) w Hok)
      as (r & P & -> & Hhandle & Hstored & Hsub & Hok1).
    rewrite bind_run.
    destruct (IH _ Hok1) as (pkgs & P' & -> & Hhandles & Hok2 & Hsub2 & Hall).
    exists (r :: pkgs), P'. split; [reflexivity|].
    split; [cbn; by rewrite Hhandle, Hhandles|].
    split; [exact Hok2|]. split; [by etrans|].
    intros package [->|Hin]%elem_of_cons; [|by apply Hall].
    rewrite Hhandle. by eapply lookup_weaken.
Qed.



Section IterVersions.
Import FileSystemPackageFamilyResource.



(** Property X6. When the directory of a split family does not exist,
    [iter_packages] raises [OSError]. *)
Theorem iter_packages_missing_directory (self : Resource) (p : string)
    (w : world) :
  path self = Ok p →
  isfile (fs w) (os_path_join p "package.py") = false →
  isfile (fs w) (os_path_join p "package.yaml") = false →
  fs w p = None →
  ∃ w', iter_packages self w = (Raise OSError, w').
Proof.
  intros Hpath Hpy Hyaml Hnone. unfold iter_packages. rewrite Hpath.
  rewrite (bind_run_ok _ _ w w p) by done.
  rewrite (bind_run_ok _ _ _ _ _ (get_file_run p "package" w)).
  unfold probe. change ("package" +:+ "." +:+ extension py) with "package.py".
  change ("package" +:+ "." +:+ extension yaml) with "package.yaml".
  rewrite Hpy, Hyaml. cbn [path_truthy].
  set (w0 := set_trace _ w).
  rewrite (bind_run_ok _ _ w0 w0 p) by done.
  destruct (get_version_dirs_fails p w0) as (w1 & Hrun & _).
  { unfold isdir. change (fs w0) with (fs w). by rewrite Hnone. }
  { intros node. change (fs w0) with (fs w). by rewrite Hnone. }
  rewrite (bind_run_raise _ _ _ _ _ Hrun). eauto.
Qed.

End IterVersions.

(** *** Loading a split package *)

Section PackageLoading.
Context `{Env}.
Import FileSystemPackageResource.

(** Property X8. The definition file of a package is looked for once. After
    [filepath] has returned, every later call returns the same answer and
    leaves the whole state as it is, so makes no filesystem call, whatever has
    changed on disk; a package that was found without a definition file keeps
    raising [PackageMetadataError] when loaded. *)
Theorem filepath_probed_once (self : Resource) (fp : option string)
    (w w1 w2 : world) :
  filepath self w = (Ok fp, w1) →
  filepath_memo w1 ⊆ filepath_memo w2 →
  filepath self w2 = (Ok fp, w2)
  ∧ (fp = None → _load self w2 = (Raise PackageMetadataError, w2)).
Proof.
  intros Hrun Hsub.
  assert (∃ v, _filepath_and_format self w = (Ok v, w1) ∧ v.1 = fp)
    as (v & Hrun' & <-).
  { unfold filepath in Hrun. rewrite bind_run in Hrun.
    destruct (_filepath_and_format self w) as [[v|e] w']; [|done].
    injection Hrun as <- <-. eauto. }
  assert (_filepath_and_format self w2 = (Ok v, w2)) as Hhit.
  { apply filepath_and_format_cached.
    unfold _filepath_and_format in Hrun'.
    apply cached_property_stored in Hrun'.
    - by eapply lookup_weaken.
    - intros a w0. cbn. apply lookup_insert_eq. }
  assert (filepath self w2 = (Ok v.1, w2)) as Hfp.
  { unfold filepath. by rewrite (bind_run_ok _ _ _ _ _ Hhit). }
  split; [done|]. intros Hnone. unfold _load.
  rewrite (bind_run_ok _ _ _ _ _ Hfp). by rewrite Hnone.
Qed.

Lemma load_parsed (self : Resource) (p fp content : string)
    (fmt : FileFormat) (st : stat_result) (parsed : doc) (w : world) :
  path self = Ok p →
  filepath_current w self p →
  probe (fs w) p "package" = (Some fp, Some fmt) →
  fs w fp = Some (File content st) →
  load_structured fmt content = Some parsed →
  ∃ w1,
    uri self w = (Ok (Some fp), w1)
    ∧ fs w1 = fs w
    ∧ (filepath_memo w !! res_id self = None →
       trace w1 = (trace w ++ probes (fs w) p "package")%list)
    ∧ uri self (log (EvRead fp) w1) = (Ok (Some fp), log (EvRead fp) w1)
    ∧ _load self w
      = (if bool_decide (parsed !! "timestamp" = None) then
           data_ ← _load_old_formats self;
           if truthy data_ then
             match data_ with
             | VDict data_ => ret (dict_update parsed data_)
             | _ => raise TypeError
             end
           else ret parsed
         else ret parsed) (log (EvRead fp) w1).
Proof.
  intros Hpath Hcur Hprobe Hfile Hparse.
  assert (∃ w1, _filepath_and_format self w = (Ok (Some fp, Some fmt), w1)
            ∧ fs w1 = fs w
            ∧ filepath_memo w1 !! res_id self = Some (Some fp, Some fmt)
            ∧ (filepath_memo w !! res_id self = None →
               trace w1 = (trace w ++ probes (fs w) p "package")%list))
    as (w1 & Hrun & Hfs1 & Hmemo1 & Htrace).
  { unfold _filepath_and_format, cached_property.
    destruct (filepath_memo w !! res_id self) as [v|] eqn:Hmemo.
    - rewrite (Hcur v), Hprobe in * by done. eexists. done.
    - rewrite Hpath. rewrite (bind_run_ok _ _ w w p) by done.
      rewrite get_file_run, Hprobe. eexists. split; [reflexivity|].
      split; [done|]. split; [cbn; apply lookup_insert_eq | done]. }
  assert (uri self w = (Ok (Some fp), w1)) as Huri.
  { unfold uri, _uri, filepath. by rewrite (bind_run_ok _ _ _ _ _ Hrun). }
  exists w1. split; [done|]. split; [done|]. split; [done|].
  pose proof (filepath_and_format_cached self _ w1 Hmemo1) as Hhit.
  split.
  { unfold uri, _uri, filepath.
    by rewrite (bind_run_ok _ _ _ _ (Some fp, Some fmt))
      by (by apply filepath_and_format_cached). }
  unfold _load.
  rewrite (bind_run_ok _ _ _ _ _ (Huri : filepath self w = _)).
  cbv iota beta.
  rewrite (bind_run_ok _ _ w1 w1 (Some fmt)).
  2: { unfold file_format. by rewrite (bind_run_ok _ _ _ _ _ Hhit). }
  rewrite (bind_run_ok _ _ w1 w1 fmt) by done.
  rewrite bind_run, load_from_file_run.
  unfold loaded. rewrite Hfs1, Hfile.
  assert (fmt ≠ txt) as Hfmt by (by eapply probe_format).
  assert ((match fmt with
           | txt => Ok (VStr content)
           | _ => match load_structured fmt content with
                  | Some d => Ok (VDict d)
                  | None => Raise (LoaderError fp)
                  end
           end) = Ok (VDict parsed)) as ->.
  { rewrite Hparse. by destruct fmt. }
  reflexivity.
Qed.

(** Property X9. When the parsed definition file has a [timestamp], [_load]
    returns the parsed document as it is, and its filesystem calls are the
    probes for the definition file and the read of that file: no legacy file
    is looked for. *)
Theorem load_with_timestamp_skips_backfill (self : Resource)
    (p fp content : string) (fmt : FileFormat) (st : stat_result)
    (parsed : doc) (t : value) (w : world) :
  path self = Ok p →
  filepath_memo w !! res_id self = None →
  probe (fs w) p "package" = (Some fp, Some fmt) →
  fs w fp = Some (File content st) →
  load_structured fmt content = Some parsed →
  parsed !! "timestamp" = Some t →
  ∃ w', _load self w = (Ok parsed, w')
      ∧ trace w' = (trace w ++ probes (fs w) p "package" ++ [EvRead fp])%list.
Proof.
  intros Hpath Hmiss Hprobe Hfile Hparse Htime.
  destruct (load_parsed self p fp content fmt st parsed w)
    as (w1 & _ & _ & Htrace & _ & ->); try done.
  { intros v. by rewrite Hmiss. }
  rewrite bool_decide_eq_false_2 by (by rewrite Htime).
  eexists. split; [reflexivity|]. cbn. rewrite Htrace by done.
  by rewrite <- app_assoc.
Qed.

(** Property X10. When there is neither a [release.yaml] file nor a
    [.metadata] directory under the path that [_load_old_formats] starts from,
    [_load] returns the parsed document unchanged. *)
Theorem load_without_legacy_files (self : Resource)
    (p fp content : string) (fmt : FileFormat) (st : stat_result)
    (parsed : doc) (w : world) :
  path self = Ok p →
  filepath_current w self p →
  probe (fs w) p "package" = (Some fp, Some fmt) →
  fs w fp = Some (File content st) →
  load_structured fmt content = Some parsed →
  isfile (fs w) (os_path_join fp "release.yaml") = false →
  isdir (fs w) (os_path_join fp ".metadata") = false →
  ∃ w', _load self w = (Ok parsed, w').
Proof.
  intros Hpath Hcur Hprobe Hfile Hparse Hrelease Hmeta.
  destruct (load_parsed self p fp content fmt st parsed w)
    as (w1 & _ & Hfs1 & _ & Huri2 & ->); try done.
  destruct (bool_decide _); [|by eexists].
  destruct (load_old_formats_run self fp _ _ Huri2) as (w3 & Hold & _).
  rewrite (bind_run_ok _ _ _ w3 VNone); [by eexists|].
  rewrite Hold. f_equal. unfold recovered_fields.
  change (fs (log _ w1)) with (fs w1). by rewrite Hfs1, Hrelease, Hmeta.
Qed.

Lemma nothing_below_definition_file (f : filesystem)
    (path content : string) (st : stat_result) :
  regular_files_are_leaves f →
  f path = Some (File content st) →
  isfile f (os_path_join path "release.yaml") = false
  ∧ isdir f (os_path_join path ".metadata") = false.
Proof.
  intros Hleaves Hfile. unfold isfile, isdir.
  by rewrite !(Hleaves path _ content st Hfile).
Qed.

(** Claim C9. The legacy backfill starts from [self.uri], which [_uri]
    makes the path of the definition file, not the directory of the
    package. On a filesystem where nothing lies beneath a regular file,
    [_load_old_formats] therefore finds neither [release.yaml] nor
    [.metadata]: after these two tests it returns [None], whatever lies
    next to the definition file, and [release_time.txt] is never read. *)
Theorem load_old_formats_recovers_nothing (self : Resource)
    (path content : string) (st : stat_result) (w w1 : world) :
  regular_files_are_leaves (fs w) →
  uri self w = (Ok (Some path), w1) →
  fs w path = Some (File content st) →
  ∃ w',
    _load_old_formats self w = (Ok VNone, w')
    ∧ trace w'
      = (trace w1 ++ [EvIsFile (os_path_join path "release.yaml");
                      EvIsDir (os_path_join path ".metadata")])%list.
Proof.
  intros Hleaves Huri Hfile.
  destruct (nothing_below_definition_file _ _ _ _ Hleaves Hfile)
    as [Hrelease Hmeta].
  pose proof (steady_uri self w) as [Hfs _]. rewrite Huri in Hfs. cbn in Hfs.
  unfold _load_old_formats.
  rewrite (bind_run_ok _ _ _ _ _ Huri).
  rewrite (bind_run_ok _ _ w1 w1 path) by done.
  rewrite bind_run, isfile_run, Hfs, Hrelease. cbv iota beta.
  rewrite bind_run, isdir_run, fs_log, Hfs, Hmeta. cbv iota beta.
  eexists. split; [reflexivity|]. cbn. by rewrite <- app_assoc.
Qed.

(** Claim C2. On a filesystem where nothing lies beneath a regular file,
    loading a split-layout package whose definition file parses returns
    the parsed document as it is, with or without a [timestamp]: the
    backfill, which looks beneath the definition file, recovers nothing,
    so no legacy field is merged. *)
Theorem load_merges_nothing (self : Resource)
    (p fp content : string) (fmt : FileFormat) (st : stat_result)
    (parsed : doc) (w : world) :
  regular_files_are_leaves (fs w) →
  path self = Ok p →
  filepath_current w self p →
  probe (fs w) p "package" = (Some fp, Some fmt) →
  fs w fp = Some (File content st) →
  load_structured fmt content = Some parsed →
  ∃ w', _load self w = (Ok parsed, w').
Proof.
  intros Hleaves Hpath Hcur Hprobe Hfile Hparse.
  destruct (nothing_below_definition_file _ _ _ _ Hleaves Hfile)
    as [Hrelease Hmeta].
  destruct (load_parsed self p fp content fmt st parsed w)
    as (w1 & _ & Hfs1 & _ & Huri2 & ->); try done.
  destruct (bool_decide _); [|by eexists].
  destruct (load_old_formats_run self fp _ _ Huri2) as (w3 & Hold & _).
  rewrite (bind_run_ok _ _ _ w3 VNone); [by eexists|].
  rewrite Hold. f_equal. unfold recovered_fields.
  change (fs (log _ w1)) with (fs w1). by rewrite Hfs1, Hrelease, Hmeta.
Qed.
End PackageLoading.

(** *** The changelog budget *)

Section ChangelogMore.
Context `{Env}.
Import FileSystemPackageResource.
#[local] Abbreviation maxlen := max_package_changelog_chars.

Lemma clip_short (s : string) :
  0 ≤ maxlen → maxlen + 3 < str_len s →
  str_len (str_slice_to s maxlen +:+ "...") ≤ maxlen + 3.
Proof.
  intros Hmax Hlong. rewrite str_len_app, str_len_slice by lia.
  unfold str_len. simpl. lia.
Qed.

Lemma update_changelog_cases (file_format : FileFormat) (data data' : value) :
  0 ≤ maxlen →
  _update_changelog file_format data = Ok data' →
  data' = data
  ∨ (∃ d s', file_format = yaml ∧ data = VDict d
       ∧ is_Some (d !! "changelog")
       ∧ data' = VDict (<["changelog" := VStr s']> d)
       ∧ str_len s' ≤ maxlen + 3)
  ∨ (∃ s', file_format ≠ yaml ∧ data' = VStr s' ∧ str_len s' ≤ maxlen + 3).
Proof.
  intros Hmax. unfold _update_changelog. cbv zeta.
  destruct (decide (file_format = yaml)) as [->|Hff].
  - destruct data as [| | | |d]; try discriminate.
    destruct (d !! "changelog") as [c|] eqn:Hc;
      cbn [default from_option]; unfold id.
    2: { change (truthy VNone) with false. cbv iota.
         intros [= <-]. by left. }
    destruct (truthy c) eqn:Htruthy; cbv iota.
    2: { intros [= <-]. by left. }
    destruct c as [|z|s|lines|d'']; cbn.
    + discriminate.
    + discriminate.
    + unfold str_len. destruct (Z.ltb_spec (maxlen + 3)
                                  (Z.of_nat (String.length s))); cbn.
      * intros [= <-]. right. left. eexists _, _.
        repeat split; [by eexists|]. by apply clip_short.
      * intros [= <-]. by left.
    + destruct (str_join nl lines) as [s|e]; cbn; [|discriminate].
      unfold str_len. destruct (Z.ltb_spec (maxlen + 3)
                                  (Z.of_nat (String.length s))); cbn.
      * intros [= <-]. right. left. eexists _, _.
        repeat split; [by eexists|]. by apply clip_short.
      * intros [= <-]. right. left. eexists _, _.
        repeat split; [by eexists|]. done.
    + destruct (_ <? _); cbn; [discriminate|]. intros [= <-]. by left.
  - destruct data as [| |s| |]; try discriminate.
    destruct (Z.ltb_spec (maxlen + 3) (str_len s)).
    + intros [= <-]. right. right. eexists. repeat split; [done|].
      by apply clip_short.
    + intros [= <-]. by left.
Qed.

Lemma update_changelog_short_text (d : doc) (s : string) :
  str_len s ≤ maxlen + 3 →
  _update_changelog yaml (VDict (<["changelog" := VStr s]> d))
  = Ok (VDict (<["changelog" := VStr s]> d)).
Proof.
  intros Hshort. unfold _update_changelog. cbv zeta.
  rewrite decide_True by done. rewrite lookup_insert_eq.
  cbn [default from_option]. unfold id.
  destruct (truthy (VStr s)); [|done]. cbn.
  by destruct (Z.ltb_spec (maxlen + 3) (str_len s)); [lia|].
Qed.

(** Property X12. With a non-negative budget, [_update_changelog] is
    idempotent: applied to a result of its own, with the same format, it
    returns that result unchanged. *)
Theorem update_changelog_idempotent (file_format : FileFormat)
    (data data' : value) :
  0 ≤ maxlen →
  _update_changelog file_format data = Ok data' →
  _update_changelog file_format data' = Ok data'.
Proof.
  intros Hmax Hrun.
  destruct (update_changelog_cases _ _ _ Hmax Hrun)
    as [->|[(d & s' & -> & -> & _ & -> & Hshort)|(s' & Hff & -> & Hshort)]].
  - done.
  - rewrite <- (insert_insert_eq d "changelog" (VStr s') (VStr s')) at 1.
    rewrite insert_insert_eq. by apply update_changelog_short_text.
  - unfold _update_changelog. rewrite decide_False by done.
    by destruct (Z.ltb_spec (maxlen + 3) (str_len s')); [lia|].
Qed.

(** Property X13. On a yaml document, [_update_changelog] leaves every key
    other than [changelog] as it is and returns a document without [changelog]
    unchanged; a changelog that it replaces is replaced by a string of at most
    [maxlen + 3] characters. *)
Theorem update_changelog_only_changelog (d : doc) (data' : value) :
  0 ≤ maxlen →
  _update_changelog yaml (VDict d) = Ok data' →
  ∃ d', data' = VDict d'
      ∧ (∀ k, k ≠ "changelog" → d' !! k = d !! k)
      ∧ (d !! "changelog" = None → d' = d)
      ∧ (∀ c, d' !! "changelog" = Some c → d !! "changelog" ≠ Some c →
         ∃ s, c = VStr s ∧ str_len s ≤ maxlen + 3).
Proof.
  intros Hmax Hrun.
  destruct (update_changelog_cases _ _ _ Hmax Hrun)
    as [->|[(d0 & s' & _ & [= <-] & [c Hc] & -> & Hshort)|(s' & Hff & _)]].
  - exists d. repeat split; done.
  - eexists. split; [done|]. split; [|split].
    + intros k Hk. by rewrite lookup_insert_ne.
    + by rewrite Hc.
    + intros c'. rewrite lookup_insert_eq. intros [= <-] _. eauto.
  - done.
Qed.
End ChangelogMore.

(** *** The listing of the families *)

Lemma substring_all (s : string) : substring 0 (String.length s) s = s.
Proof. induction s as [|c s IH]; cbn; [done|]. by f_equal. Qed.

Lemma substring_split (n : nat) (s : string) :
  substring 0 n s +:+ substring n (String.length s - n) s = s.
Proof.
  revert n. induction s as [|c s IH]; intros [|n]; cbn; try done.
  - change (String c (substring 0 (String.length s) s) = String c s).
    f_equal. apply substring_all.
  - change (String c (substring 0 n s
                      +:+ substring n (String.length s - n) s) = String c s).
    f_equal. apply IH.
Qed.

Lemma splitext_app (p root ext : string) :
  os_path_splitext p = (root, ext) → p = root +:+ ext.
Proof.
  unfold os_path_splitext.
  assert (p = p +:+ "") as Hnil.
  { clear. induction p as [|c p IH]; [done|].
    change (String c p = String c (p +:+ "")). by rewrite <- IH. }
  destruct (str_rfind p ".") as [dotIndex|].
  - destruct (_ && _).
    + intros [= <- <-]. by rewrite substring_split.
    + by intros [= <- <-].
  - by intros [= <- <-].
Qed.

Section FamilyDirsProofs.
Context `{Env}.
Import FileSystemPackageRepository.

Lemma get_family_dirs_loop_run (repo : t) (names : list string)
    (dirs : list (string * option string)) (w : world) :
  ∃ w', _get_family_dirs__loop repo names dirs w
        = (Ok (dirs ++ omap (family_entry (fs w) (location repo)) names)%list,
           w')
      ∧ fs w' = fs w ∧ pool w' = pool w
      ∧ trace w'
        = (trace w
           ++ ((λ name, EvIsDir (os_path_join (location repo) name))
               <$> names))%list.
Proof.
  revert dirs w. induction names as [|name names IH]; intros dirs w.
  - exists w. cbn. rewrite !app_nil_r. done.
  - cbn [_get_family_dirs__loop omap list_omap]. rewrite bind_run.
    rewrite isdir_run. cbv iota beta. unfold family_entry at 1.
    set (w0 := log _ w).
    assert (fs w0 = fs w) as Hfs by done.
    assert (trace w0
            = trace w ++ [EvIsDir (os_path_join (location repo) name)])%list
      as Htrace by done.
    assert (pool w0 = pool w) as Hpool by done.
    destruct (isdir (fs w) (os_path_join (location repo) name)).
    + destruct (is_valid_package_name name).
      * destruct (IH (dirs ++ [(name, None)])%list w0)
          as (w' & -> & Hfs' & Hpool' & Htrace').
        exists w'. rewrite Hfs, <- app_assoc. split; [done|].
        rewrite Hfs', Hpool', Htrace', Htrace, <- app_assoc. done.
      * destruct (IH dirs w0) as (w' & -> & Hfs' & Hpool' & Htrace').
        exists w'. rewrite Hfs. split; [done|].
        rewrite Hfs', Hpool', Htrace', Htrace, <- app_assoc. done.
    + destruct (os_path_splitext name) as [name_ ext_].
      destruct (bool_decide (ext_ ∈ [".py"; ".yaml"])
                && is_valid_package_name name_).
      * destruct (IH (dirs ++ [(name_, Some (str_tail ext_))])%list w0)
          as (w' & -> & Hfs' & Hpool' & Htrace').
        exists w'. rewrite Hfs, <- app_assoc. split; [done|].
        rewrite Hfs', Hpool', Htrace', Htrace, <- app_assoc. done.
      * destruct (IH dirs w0) as (w' & -> & Hfs' & Hpool' & Htrace').
        exists w'. rewrite Hfs. split; [done|].
        rewrite Hfs', Hpool', Htrace', Htrace, <- app_assoc. done.
Qed.

Lemma get_family_dirs_run (repo : t) (entries : list string)
    (st : stat_result) (w : world) :
  fs w (location repo) = Some (Dir entries st) →
  ∃ w', _get_family_dirs__body repo w
        = (Ok (omap (family_entry (fs w) (location repo)) entries), w')
      ∧ fs w' = fs w ∧ pool w' = pool w.
Proof.
  intros Hdir. unfold _get_family_dirs__body. rewrite bind_run.
  unfold os_listdir. rewrite Hdir.
  destruct (get_family_dirs_loop_run repo entries []
              (log (EvListDir (location repo)) w))
    as (w' & -> & Hfs & Hpool & _).
  exists w'. done.
Qed.

Lemma family_entry_inv (f : filesystem) (location name n : string)
    (e : option string) :
  family_entry f location name = Some (n, e) →
  is_valid_package_name n = true
  ∧ (e = None ∧ n = name ∧ isdir f (os_path_join location name) = true
     ∨ ∃ x, e = Some x ∧ (x = "py" ∨ x = "yaml")
          ∧ name = n +:+ "." +:+ x
          ∧ isdir f (os_path_join location name) = false).
Proof.
  unfold family_entry.
  destruct (isdir f (os_path_join location name)).
  - destruct (is_valid_package_name name) eqn:Hvalid; [|done].
    intros [= <- <-]. split; [done|]. by left.
  - destruct (os_path_splitext name) as [name_ ext_] eqn:Hsplit.
    apply splitext_app in Hsplit.
    destruct (bool_decide (ext_ ∈ [".py"; ".yaml"])) eqn:Hext; [|done].
    destruct (is_valid_package_name name_) eqn:Hvalid; [|done].
    intros [= <- <-]. split; [done|]. right.
    apply bool_decide_eq_true in Hext.
    apply elem_of_cons in Hext as [->| ->%list_elem_of_singleton].
    + exists "py". repeat split; by eauto.
    + exists "yaml". repeat split; by eauto.
Qed.

(** Property X14. The scan of [_get_family_dirs] succeeds when the repository
    location is a directory and leaves the filesystem as it is. Every pair it
    lists has a valid package name, and is either [(name, None)] for an entry
    [name] that is a directory, or [(name, ext)] with [ext] one of [py] and
    [yaml] for an entry [name.ext] that is not a directory. Every entry that
    is a directory with a valid name is listed. *)
Theorem get_family_dirs_lists_valid_names (repo : t)
    (entries : list string) (st : stat_result) (w : world) :
  fs w (location repo) = Some (Dir entries st) →
  ∃ dirs w',
    _get_family_dirs__body repo w = (Ok dirs, w')
    ∧ fs w' = fs w
    ∧ (∀ n e, (n, e) ∈ dirs →
         is_valid_package_name n = true
         ∧ (e = None ∧ n ∈ entries
            ∧ isdir (fs w) (os_path_join (location repo) n) = true
            ∨ ∃ x, e = Some x ∧ (x = "py" ∨ x = "yaml")
                 ∧ n +:+ "." +:+ x ∈ entries
                 ∧ isdir (fs w)
                     (os_path_join (location repo) (n +:+ "." +:+ x))
                   = false))
    ∧ (∀ n, n ∈ entries →
         isdir (fs w) (os_path_join (location repo) n) = true →
         is_valid_package_name n = true → (n, None) ∈ dirs).
Proof.
  intros Hdir.
  destruct (get_family_dirs_run repo entries st w Hdir)
    as (w' & Hrun & Hfs & _).
  eexists _, w'. split; [exact Hrun|]. split; [done|]. split.
  - intros n e (name & Hin & Hentry)%list_elem_of_omap.
    apply family_entry_inv in Hentry as [Hvalid Hcases].
    split; [done|].
    destruct Hcases as [(-> & -> & Hisdir)|(x & -> & Hx & -> & Hisdir)].
    + by left.
    + right. eauto 10.
  - intros n Hin Hisdir Hvalid. apply list_elem_of_omap.
    exists n. split; [done|]. unfold family_entry.
    by rewrite Hisdir, Hvalid.
Qed.

(** Property X15. When the repository location is not a directory, the scan of
    [_get_family_dirs] raises [OSError], and its one filesystem call is the
    listing. *)
Theorem get_family_dirs_not_a_directory (repo : t) (w : world) :
  isdir (fs w) (location repo) = false →
  ∃ w', _get_family_dirs__body repo w = (Raise OSError, w')
      ∧ trace w' = (trace w ++ [EvListDir (location repo)])%list.
Proof.
  intros Hdir. unfold _get_family_dirs__body. rewrite bind_run.
  unfold os_listdir, isdir in *.
  destruct (fs w (location repo)) as [[| ]|]; try done; eauto.
Qed.

(** Property X16. When every entry of the repository directory is a directory
    or a regular file, each name listed by the scan of [_get_family_dirs] is
    resolved by [get_package_family], when first asked of the repository, to
    a family of that name, never to [None] or to an error; a name listed as
    a directory resolves to a split family. *)
Theorem get_family_dirs_names_resolve (repo : t)
    (entries : list string) (st : stat_result) (w : world) :
  fs w (location repo) = Some (Dir entries st) →
  (∀ entry, entry ∈ entries →
     isdir (fs w) (os_path_join (location repo) entry) = true
     ∨ isfile (fs w) (os_path_join (location repo) entry) = true) →
  ∃ dirs w',
    _get_family_dirs__body repo w = (Ok dirs, w')
    ∧ ∀ n e w2,
        (n, e) ∈ dirs →
        pool_ok w2 → fs w2 = fs w →
        family_memo w2 !! _get_family__key repo n = None →
        ∃ family w3,
          get_package_family repo n w2 = (Ok (Some family), w3)
          ∧ name family = VarStr n
          ∧ (e = None →
             res_key family = FileSystemPackageFamilyResource_key).
Proof.
  intros Hdir Hexists.
  destruct (get_family_dirs_run repo entries st w Hdir)
    as (w' & Hrun & Hfs & _).
  eexists _, w'. split; [exact Hrun|].
  intros n e w2 (entry & Hin & Hentry)%list_elem_of_omap Hok Hfs2 Hmiss.
  apply family_entry_inv in Hentry as [Hvalid Hcases].
  destruct (get_family_body_run repo n w2 Hok)
    as (r & w3 & Hbody & Hinvalid & Hres).
  specialize (Hres Hvalid) as (Hsplit & Hpy & Hyaml & Hnone).
  rewrite Hfs2 in *.
  assert (∀ family : Resource,
    (res_handle family = (FileSystemPackageFamilyResource_key,
       {[ "location" := VarStr (location repo); "name" := VarStr n ]})
     ∨ ∃ ext, res_handle family
         = (FileSystemCombinedPackageFamilyResource_key,
            {[ "location" := VarStr (location repo); "name" := VarStr n;
               "ext" := VarStr ext ]})) →
    name family = VarStr n) as Hname.
  { intros family [Hh|[ext Hh]];
      unfold name, get, variables; rewrite Hh; cbn; by simplify_map_eq. }
  assert (∀ family, r = Ok (Some family) →
    ∃ w3, get_package_family repo n w2 = (Ok (Some family), w3)) as Hrun2.
  { intros family ->. unfold get_package_family, _get_family, cached_property.
    rewrite Hmiss, Hbody. eauto. }
  destruct (isdir (fs w) (os_path_join (location repo) n)) eqn:Hisdir.
  { destruct (Hsplit eq_refl) as (family & -> & Hh).
    destruct (Hrun2 family eq_refl) as [w4 Hrun4].
    exists family, w4. split; [done|]. split.
    - apply Hname. by left.
    - intros _. unfold res_key. by rewrite Hh. }
  destruct Hcases as [(-> & -> & Hentrydir)|(x & -> & Hx & -> & Hnotdir)].
  { by rewrite Hisdir in Hentrydir. }
  assert (isfile (fs w) (os_path_join (location repo) (n +:+ "." +:+ x))
          = true) as Hfile.
  { destruct (Hexists _ Hin) as [Hd|Hf]; [|done].
    by rewrite Hnotdir in Hd. }
  destruct (isfile (fs w) (os_path_join (location repo) (n +:+ "." +:+ "py")))
    eqn:Hpyfile.
  { destruct (Hpy eq_refl eq_refl) as (family & -> & Hh).
    destruct (Hrun2 family eq_refl) as [w4 Hrun4].
    exists family, w4. split; [done|]. split; [|done].
    apply Hname. right. eauto. }
  destruct Hx as [->| ->]; [by rewrite Hpyfile in Hfile|].
  destruct (Hyaml eq_refl eq_refl Hfile) as (family & -> & Hh).
  destruct (Hrun2 family eq_refl) as [w4 Hrun4].
  exists family, w4. split; [done|]. split; [|done].
  apply Hname. right. eauto.
Qed.
End FamilyDirsProofs.

(** *** Combined families, packages and variants *)

Lemma combined_family_vars_lookup (l n e : var) :
  let vars : gmap string var :=
    {[ "location" := l; "name" := n; "ext" := e ]} in
  vars !! "location" = Some l ∧ vars !! "name" = Some n
  ∧ vars !! "ext" = Some e.
Proof. cbn. by simplify_map_eq. Qed.

Lemma combined_package_vars_lookup (l n e v : var) :
  let vars : gmap string var :=
    {[ "location" := l; "name" := n; "ext" := e; "version" := v ]} in
  vars !! "location" = Some l ∧ vars !! "name" = Some n
  ∧ vars !! "ext" = Some e ∧ vars !! "version" = Some v.
Proof. cbn. by simplify_map_eq. Qed.

Lemma combined_variant_vars_lookup (l n e v i : var) :
  let vars : gmap string var :=
    {[ "location" := l; "name" := n; "ext" := e; "version" := v;
       "index" := i ]} in
  vars !! "location" = Some l ∧ vars !! "name" = Some n
  ∧ vars !! "ext" = Some e ∧ vars !! "version" = Some v
  ∧ vars !! "index" = Some i.
Proof. cbn. by simplify_map_eq. Qed.

Lemma FileFormat_getitem_extension (fmt : FileFormat) :
  FileFormat_getitem (VarStr (extension fmt)) = Ok fmt.
Proof. by destruct fmt. Qed.

Section CombinedFamilyProofs.
Context `{Env}.
Import FileSystemCombinedPackageFamilyResource.
Variable repo : FileSystemPackageRepository.t.
#[local] Abbreviation root := (FileSystemPackageRepository.location repo).

(** Property X17. For a valid name that the repository has not been asked
    for before, that is not a directory of the repository and for which
    [_get_file] finds a file, [get_package_family] returns a combined family
    whose [filepath] is the file found, and whose [_load] loads that very
    file with the format that was found. *)
Theorem combined_family_loads_probed_file (n fp : string)
    (fmt : FileFormat) (w : world) :
  pool_ok w →
  family_memo w !! FileSystemPackageRepository._get_family__key repo n
  = None →
  is_valid_package_name n = true →
  isdir (fs w) (os_path_join root n) = false →
  probe (fs w) root n = (Some fp, Some fmt) →
  ∃ family w1,
    FileSystemPackageRepository.get_package_family repo n w
    = (Ok (Some family), w1)
    ∧ res_key family = FileSystemCombinedPackageFamilyResource_key
    ∧ filepath family = Ok fp
    ∧ ∀ w2, _load family w2 = load_from_file fp fmt None w2.
Proof.
  intros Hok Hmiss Hvalid Hdir Hprobe.
  destruct (get_family_body_run repo n w Hok)
    as (r & w1 & Hbody & _ & Hres).
  specialize (Hres Hvalid) as (_ & Hpy & Hyaml & _).
  assert (∃ family,
    r = Ok (Some family)
    ∧ res_handle family
      = (FileSystemCombinedPackageFamilyResource_key,
         {[ "location" := VarStr root; "name" := VarStr n;
            "ext" := VarStr (extension fmt) ]})
    ∧ fp = os_path_join root (n +:+ "." +:+ extension fmt))
    as (family & -> & Hh & ->).
  { revert Hprobe. unfold probe.
    change (extension py) with "py". change (extension yaml) with "yaml".
    destruct (isfile (fs w) (os_path_join root (n +:+ "." +:+ "py")))
      eqn:Hpyfile.
    - intros [= <- <-]. destruct (Hpy Hdir eq_refl) as (family & ? & ?).
      eauto.
    - destruct (isfile (fs w) (os_path_join root (n +:+ "." +:+ "yaml")))
        eqn:Hyamlfile; [|done].
      intros [= <- <-].
      destruct (Hyaml Hdir eq_refl eq_refl) as (family & ? & ?). eauto. }
  exists family,
    (set_family_memo
       (<[FileSystemPackageRepository._get_family__key repo n := Some family]>
          (family_memo w1)) w1).
  split.
  { unfold FileSystemPackageRepository.get_package_family,
      FileSystemPackageRepository._get_family, cached_property.
    by rewrite Hmiss, Hbody. }
  split; [unfold res_key; by rewrite Hh|].
  destruct (combined_family_vars_lookup (VarStr root) (VarStr n)
              (VarStr (extension fmt))) as (Hl & Hn & He).
  assert (location family = VarStr root) as Hloc.
  { unfold location, get, variables. rewrite Hh. cbn [snd].
    by rewrite Hl. }
  assert (name family = VarStr n) as Hname.
  { unfold name, get, variables. rewrite Hh. cbn [snd]. by rewrite Hn. }
  assert (ext family = VarStr (extension fmt)) as Hext.
  { unfold ext, get, variables. rewrite Hh. cbn [snd]. by rewrite He. }
  assert (filepath family
          = Ok (os_path_join root (n +:+ "." +:+ extension fmt)))
    as Hfp.
  { unfold filepath. by rewrite Hloc, Hname, Hext. }
  split; [done|].
  intros w2. unfold _load. rewrite Hext, FileFormat_getitem_extension, Hfp.
  reflexivity.
Qed.
End CombinedFamilyProofs.

Section CombinedChildrenProofs.
Context `{Versions}.
Variable str : Version → string.
Import FileSystemCombinedPackageFamilyResource.

(** Property X18. Given the validated [versions] of a combined family that is
    registered in the pool, [iter_packages] makes no filesystem call and
    yields one package per version, in order, with [str(version)] as its
    version, or a single package without version when [versions] is [None] or
    empty; the parent of every yielded package is the family object itself. *)
Theorem combined_iter_packages_children (versions : option (list Version))
    (self : Resource) (w : world) :
  pool_ok w →
  pool w !! (FileSystemCombinedPackageFamilyResource_key,
             {[ "location" := location self; "name" := name self;
                "ext" := ext self ]}) = Some self →
  ∃ packages w',
    iter_packages str versions self w = (Ok packages, w')
    ∧ fs w' = fs w ∧ trace w' = trace w
    ∧ res_handle <$> packages
      = (if versions_truthy versions
         then (λ version,
                 (FileSystemCombinedPackageResource_key,
                  {[ "location" := location self; "name" := name self;
                     "ext" := ext self;
                     "version" := VarStr (str version) ]}))
              <$> default [] versions
         else [(FileSystemCombinedPackageResource_key,
                {[ "location" := location self; "name" := name self;
                   "ext" := ext self ]})])
    ∧ ∀ package,
        package ∈ packages →
        parent_memo w' !! res_id package = None →
        ∃ w'', FileSystemCombinedPackageResource.parent package w'
               = (Ok self, w'').
Proof.
  intros Hok Hreg. unfold iter_packages.
  assert (∀ (packages : list Resource) P,
    pool w ⊆ P →
    (∀ package, package ∈ packages →
       location package = location self ∧ name package = name self
       ∧ get package "ext" = ext self) →
    ∀ package, package ∈ packages →
      parent_memo (set_pool P w) !! res_id package = None →
      ∃ w'', FileSystemCombinedPackageResource.parent package (set_pool P w)
             = (Ok self, w'')) as Hparent.
  { intros packages P Hsub Hvars package Hin Hmiss.
    destruct (Hvars package Hin) as (Hl & Hn & He).
    unfold FileSystemCombinedPackageResource.parent, cached_property.
    rewrite Hmiss, Hl, Hn, He.
    rewrite (get_resource_hit _ _ self); [eauto|].
    by eapply lookup_weaken. }
  destruct (versions_truthy versions) eqn:Htruthy; cbn [negb].
  - destruct (mapM_get_resource_handles FileSystemCombinedPackageResource_key
                (λ version, {[ "location" := location self;
                               "name" := name self; "ext" := ext self;
                               "version" := VarStr (str version) ]})
                (default [] versions) w Hok)
      as (packages & P & Hrun & Hhandles & _ & Hsub & _).
    exists packages, (set_pool P w). split; [exact Hrun|].
    split; [done|]. split; [done|]. split; [done|].
    apply (Hparent packages P Hsub). intros package Hin.
    assert (res_handle package ∈ res_handle <$> packages) as Hh
      by (by apply list_elem_of_fmap_2).
    rewrite Hhandles in Hh. apply list_elem_of_fmap in Hh as (v & Hh & _).
    destruct (combined_package_vars_lookup (location self) (name self)
                (ext self) (VarStr (str v))) as (Hl & Hn & He & _).
    unfold location, name, get, variables. rewrite Hh. cbn [snd].
    by rewrite Hl, Hn, He.
  - destruct (get_resource_run FileSystemCombinedPackageResource_key
                {[ "location" := location self; "name" := name self;
                   "ext" := ext self ]} w Hok)
      as (package & P & Hrun & Hhandle & _ & Hsub & _).
    rewrite (bind_run_ok _ _ _ _ _ Hrun).
    exists [package], (set_pool P w). split; [done|].
    split; [done|]. split; [done|]. split; [cbn; by rewrite Hhandle|].
    apply (Hparent [package] P Hsub).
    intros ? ->%list_elem_of_singleton.
    destruct (combined_family_vars_lookup (location self) (name self)
                (ext self)) as (Hl & Hn & He).
    unfold location, name, get, variables. rewrite Hhandle. cbn [snd].
    by rewrite Hl, Hn, He.
Qed.
End CombinedChildrenProofs.

Section CombinedVariantsProofs.
Import FileSystemCombinedPackageResource.

(** Property X19. Given the document of a combined package, whose [variants]
    are a list or are absent, [iter_variants] makes no filesystem call and
    yields one variant of index [None] when there are no variants, and else
    one variant per index from 0 on, in order. Every variant carries the
    location, name, ext and version of the package, and when the package is
    registered in the pool with these variables, the parent of every variant
    is the package object itself. *)
Theorem combined_iter_variants_children (data : doc) (self : Resource)
    (variants : list value) (w : world) :
  pool_ok w →
  default (VList []) (data !! "variants") = VList variants →
  ∃ vs w',
    iter_variants data self w = (Ok vs, w')
    ∧ fs w' = fs w ∧ trace w' = trace w
    ∧ (λ v, get v "index") <$> vs
      = (if decide (variants = []) then [VarNone]
         else VarInt <$> seqZ 0 (Z.of_nat (length variants)))
    ∧ (∀ v, v ∈ vs →
         res_key v = FileSystemCombinedVariantResource_key
         ∧ location v = location self ∧ name v = name self
         ∧ get v "ext" = get self "ext"
         ∧ get v "version" = get self "version")
    ∧ (pool w !! (FileSystemCombinedPackageResource_key,
                  {[ "location" := location self; "name" := name self;
                     "ext" := get self "ext";
                     "version" := get self "version" ]}) = Some self →
       ∀ v, v ∈ vs → parent_memo w' !! res_id v = None →
         ∃ w'', FileSystemCombinedVariantResource.parent v w'
                = (Ok self, w'')).
Proof.
  intros Hok Hvariants. unfold iter_variants. rewrite Hvariants.
  cbn [py_len]. rewrite (bind_run_ok _ _ w w (Z.of_nat (length variants)))
    by done.
  cbv zeta.
  set (indexes := if Z.of_nat (length variants) =? 0 then [VarNone]
                  else VarInt <$> seqZ 0 (Z.of_nat (length variants))).
  assert ((if decide (variants = []) then [VarNone]
           else VarInt <$> seqZ 0 (Z.of_nat (length variants))) = indexes)
    as ->.
  { unfold indexes. destruct variants; [done|].
    rewrite decide_False by done. done. }
  destruct (mapM_get_resource_handles variant_key
              (λ index, {[ "location" := location self;
                           "name" := name self; "ext" := get self "ext";
                           "version" := get self "version";
                           "index" := index ]}) indexes w Hok)
    as (vs & P & Hrun & Hhandles & _ & Hsub & _).
  exists vs, (set_pool P w). split; [exact Hrun|].
  split; [done|]. split; [done|].
  assert (∀ v, v ∈ vs →
            ∃ index, res_handle v
              = (variant_key,
                 {[ "location" := location self; "name" := name self;
                    "ext" := get self "ext";
                    "version" := get self "version";
                    "index" := index ]})) as Hall.
  { intros v Hin.
    assert (res_handle v ∈ res_handle <$> vs) as Hh
      by (by apply list_elem_of_fmap_2).
    rewrite Hhandles in Hh. apply list_elem_of_fmap in Hh as (i & Hh & _).
    eauto. }
  assert (∀ v, v ∈ vs →
            res_key v = FileSystemCombinedVariantResource_key
            ∧ location v = location self ∧ name v = name self
            ∧ get v "ext" = get self "ext"
            ∧ get v "version" = get self "version") as Hvars.
  { intros v [index Hh]%Hall.
    destruct (combined_variant_vars_lookup (location self) (name self)
                (get self "ext") (get self "version") index)
      as (Hl & Hn & He & Hv & _).
    unfold res_key, location, name. unfold get at 1 3 5 7, variables.
    rewrite Hh. cbn [fst snd]. by rewrite Hl, Hn, He, Hv. }
  split; [|split; [exact Hvars|]].
  - clear Hall Hvars Hrun. revert vs Hhandles.
    induction indexes as [|index indexes IH]; intros [|v vs]; try done.
    cbn. intros [= Hh Hrest]. f_equal; [|by apply IH].
    destruct (combined_variant_vars_lookup (location self) (name self)
                (get self "ext") (get self "version") index)
      as (_ & _ & _ & _ & Hi).
    unfold get at 1, variables. rewrite Hh. cbn [snd]. by rewrite Hi.
  - intros Hreg v Hin Hmiss.
    destruct (Hvars v Hin) as (_ & Hl & Hn & He & Hv).
    unfold FileSystemCombinedVariantResource.parent, cached_property.
    rewrite Hmiss, Hl, Hn, He, Hv.
    rewrite (get_resource_hit _ _ self); [eauto|].
    by eapply lookup_weaken.
Qed.
End CombinedVariantsProofs.

(** *** Paths beneath a regular file *)

Lemma prefix_app (s t : string) : String.prefix s (s +:+ t) = true.
Proof.
  induction s as [|c s IH]; [by destruct t|].
  change (String.prefix (String c s) (String c (s +:+ t)) = true).
  cbn. by destruct (ascii_dec c c).
Qed.

Lemma prefix_join (path name : string) :
  String.prefix "/" name = false →
  String.prefix path (os_path_join path name) = true.
Proof.
  intros Hrel. unfold os_path_join. rewrite Hrel.
  destruct (_ || _); apply prefix_app.
Qed.

Lemma join_longer (path name : string) :
  name ≠ "" → String.prefix "/" name = false →
  os_path_join path name ≠ path.
Proof.
  intros Hne Hrel Heq. apply (f_equal String.length) in Heq.
  unfold os_path_join in Heq. rewrite Hrel in Heq.
  destruct name as [|c name]; [done|].
  destruct (_ || _); rewrite !length_app_string in Heq; cbn in Heq; lia.
Qed.

Lemma fs_of_leaves (nodes : list (string * node)) :
  leaves_check nodes = true → regular_files_are_leaves (Sample.fs_of nodes).
Proof.
  intros Hcheck path name content st Hfile Hne Hrel.
  destruct (Sample.fs_of nodes (os_path_join path name)) as [n|] eqn:Hjoin;
    [exfalso|done].
  unfold Sample.fs_of in *.
  apply elem_of_list_to_map_2, list_elem_of_In in Hfile.
  apply elem_of_list_to_map_2, list_elem_of_In in Hjoin.
  unfold leaves_check in Hcheck. rewrite forallb_forall in Hcheck.
  specialize (Hcheck _ Hfile). cbn in Hcheck.
  rewrite forallb_forall in Hcheck. specialize (Hcheck _ Hjoin).
  cbn in Hcheck. rewrite prefix_join in Hcheck by done. cbn in Hcheck.
  apply String.eqb_eq in Hcheck. by apply join_longer in Hcheck.
Qed.

(** ** The properties on the examples *)

Import Example Sample.
#[local] Existing Instance env5.
#[local] Existing Instance versions.

Lemma surjective_run {A} (m : M A) (w : world) (r : res A) :
  (m w).1 = r → m w = (r, (m w).2).
Proof. intros <-. apply surjective_pairing. Defined.

Lemma pool_ok_start_disk : pool_ok (start disk).
Proof. intros h r. vm_compute. discriminate. Defined.

Lemma disk_leaves : regular_files_are_leaves disk.
Proof. apply fs_of_leaves. vm_compute. reflexivity. Defined.

(** A changelog of 6 characters exceeds the budget of 5, and is kept. *)
Lemma changelog_within_margin_kept :
  5 < str_len "abcdef"
  ∧ FileSystemPackageResource._update_changelog txt (VStr "abcdef")
    = Ok (VStr "abcdef")
  ∧ VStr "abcdef" ≠ VStr (str_slice_to "abcdef" 5 +:+ "...").
Proof. split; [done|]. split; [reflexivity | discriminate]. Qed.

Lemma update_changelog_truncates_witness :
  let data := VDict {[ "changelog" := changelog_lines ]} in
  let text := "line one" +:+ nl +:+ "line two" in
  0 ≤ 5
  ∧ supplied_changelog yaml data = Some changelog_lines
  ∧ changelog_text changelog_lines = Some text
  ∧ ∃ r, FileSystemPackageResource._update_changelog yaml data
         = Ok (with_changelog yaml data r)
       ∧ (str_len text ≤ 5 + 3 → r = text)
       ∧ (5 + 3 < str_len text →
          r = str_slice_to text 5 +:+ "..." ∧ str_len r = 5 + 3).
Proof.
  intros data text.
  assert (0 ≤ 5) as H1 by lia.
  assert (supplied_changelog yaml data = Some changelog_lines) as H2
    by reflexivity.
  assert (changelog_text changelog_lines = Some text) as H3 by reflexivity.
  split; [exact H1|]. split; [exact H2|]. split; [exact H3|].
  exact (update_changelog_truncates yaml data changelog_lines text H1 H2 H3).
Defined.

(** Version 1.1 lies in both ranges of [pkgE]: the code ends with the
    requirement of the second range, a first-match rule with that of the
    first. *)
Lemma first_match_only_refuted :
  let self := combined_package "pkgE" "1.1" in
  is_Some (FileSystemCombinedPackageResource.data pkgE !! "versions")
  ∧ FileSystemCombinedPackageResource.version_overrides pkgE
    = Some [ (AtLeast [1], requires "python-2.5");
             (AtLeast [1; 1], requires "python-2.6") ]
  ∧ contains (AtLeast [1]) [1; 1] = true
  ∧ contains (AtLeast [1; 1]) [1; 1] = true
  ∧ FileSystemCombinedPackageResource._load pkgE self
    = Ok {[ "name" := VStr "pkgE"; "version" := VStr "1.1";
            "requires" := VList [VStr "python-2.6"] ]}
  ∧ _load_first_match pkgE self
    = Ok {[ "name" := VStr "pkgE"; "version" := VStr "1.1";
            "requires" := VList [VStr "python-2.5"] ]}.
Proof.
  intros self. split; [by vm_compute; eexists|].
  repeat split; vm_compute; reflexivity.
Qed.

Lemma combined_load_merges_every_match_witness :
  let items := [ (Family [1; 0], requires "python-2.5");
                 (AtLeast [1; 1], requires "python-2.6") ] in
  let self := combined_package "pkgC" "1.1" in
  is_Some (FileSystemCombinedPackageResource.data pkgC !! "versions")
  ∧ is_Some (FileSystemCombinedPackageResource.data pkgC !! "version_overrides")
  ∧ FileSystemCombinedPackageResource.version_overrides pkgC = Some items
  ∧ items ≠ []
  ∧ mkVersion (get self "version") = Ok [1; 1]
  ∧ ∃ d, FileSystemCombinedPackageResource._load pkgC self = Ok d
       ∧ d !! "version_overrides" = None
       ∧ ∀ k, k ≠ "version_overrides" →
           d !! k = match overridden [1; 1] items k with
                    | Some x => Some x
                    | None => versioned_base pkgC self !! k
                    end.
Proof.
  intros items self.
  assert (is_Some (FileSystemCombinedPackageResource.data pkgC !! "versions"))
    as H1 by (by vm_compute; eexists).
  assert (is_Some (FileSystemCombinedPackageResource.data pkgC
                   !! "version_overrides")) as H2 by (by vm_compute; eexists).
  assert (FileSystemCombinedPackageResource.version_overrides pkgC = Some items)
    as H3 by reflexivity.
  assert (items ≠ []) as H4 by discriminate.
  assert (mkVersion (get self "version") = Ok [1; 1]) as H5
    by (vm_compute; reflexivity).
  repeat (split; [assumption|]).
  exact (combined_load_merges_every_match pkgC self items [1; 1] H1 H2 H3 H4 H5).
Defined.

Lemma combined_load_keeps_overrides_key_witness :
  let self := combined_package "pkgD" "1.0" in
  (FileSystemCombinedPackageResource.data pkgD !! "versions" = None
   ∨ FileSystemCombinedPackageResource.overrides_truthy
       (FileSystemCombinedPackageResource.version_overrides pkgD) = false)
  ∧ FileSystemCombinedPackageResource._load pkgD self
    = Ok (FileSystemCombinedPackageResource.data pkgD).
Proof.
  intros self.
  assert (FileSystemCombinedPackageResource.data pkgD !! "versions" = None)
    as H1 by (vm_compute; reflexivity).
  split; [by left|].
  exact (proj1 (proj2 (combined_load_keeps_overrides_key pkgD self
                         (or_introl H1))) H1).
Defined.

Lemma load_merges_nothing_witness :
  let w := start disk in
  let parsed : doc := {[ "name" := VStr "foo"; "changelog" := VStr "new" ]} in
  regular_files_are_leaves (fs w)
  ∧ FileSystemPackageResource.path foo_1_0 = Ok "/repo/foo/1.0"
  ∧ filepath_current w foo_1_0 "/repo/foo/1.0"
  ∧ probe (fs w) "/repo/foo/1.0" "package"
    = (Some "/repo/foo/1.0/package.yaml", Some yaml)
  ∧ fs w "/repo/foo/1.0/package.yaml" = Some (File definition_file (st 4 400))
  ∧ load_structured yaml definition_file = Some parsed
  ∧ parsed !! "timestamp" = None
  ∧ fs w "/repo/foo/1.0/.metadata/changelog.txt"
    = Some (File "old" (st 6 600))
  ∧ fs w "/repo/foo/1.0/.metadata/release_time.txt"
    = Some (File "1400000000" (st 7 700))
  ∧ ∃ w', FileSystemPackageResource._load foo_1_0 w = (Ok parsed, w').
Proof.
  intros w parsed.
  assert (FileSystemPackageResource.path foo_1_0 = Ok "/repo/foo/1.0") as H1
    by (vm_compute; reflexivity).
  assert (filepath_current w foo_1_0 "/repo/foo/1.0") as H2.
  { intros v. vm_compute. discriminate. }
  assert (probe (fs w) "/repo/foo/1.0" "package"
          = (Some "/repo/foo/1.0/package.yaml", Some yaml)) as H3
    by (vm_compute; reflexivity).
  assert (fs w "/repo/foo/1.0/package.yaml"
          = Some (File definition_file (st 4 400))) as H4
    by (vm_compute; reflexivity).
  assert (load_structured yaml definition_file = Some parsed) as H5
    by (vm_compute; reflexivity).
  split; [exact disk_leaves|].
  repeat (split; [assumption|]).
  repeat (split; [vm_compute; reflexivity|]).
  exact (load_merges_nothing foo_1_0 "/repo/foo/1.0"
           "/repo/foo/1.0/package.yaml" definition_file yaml (st 4 400)
           parsed w disk_leaves H1 H2 H3 H4 H5).
Defined.

Lemma iter_packages_probes_first_witness :
  pool_ok (start disk)
  ∧ FileSystemPackageFamilyResource.path baz = Ok "/repo/baz"
  ∧ ∃ r w' rest,
      FileSystemPackageFamilyResource.iter_packages baz (start disk) = (r, w')
      ∧ trace w'
        = (trace (start disk)
           ++ probes (fs (start disk)) "/repo/baz" "package" ++ rest)%list
      ∧ (isfile (fs (start disk)) (os_path_join "/repo/baz" "package.py")
         || isfile (fs (start disk)) (os_path_join "/repo/baz" "package.yaml")
         = true →
         rest = [] ∧ listdir_memo w' = listdir_memo (start disk)
         ∧ ∃ package,
             r = Ok [package]
             ∧ res_handle package
               = (FileSystemPackageResource_key,
                  {[ "location" := location baz; "name" := name baz ]})
             ∧ get package "version" = VarNone).
Proof.
  assert (FileSystemPackageFamilyResource.path baz = Ok "/repo/baz") as H2
    by (vm_compute; reflexivity).
  split; [exact pool_ok_start_disk|]. split; [exact H2|].
  exact (iter_packages_probes_first baz "/repo/baz" (start disk)
           pool_ok_start_disk H2).
Defined.

(** A name that was looked up when the repository held nothing is still
    resolved to [None] once its directory exists. *)
Lemma get_package_family_remembers_none :
  let w1 :=
    (FileSystemPackageRepository.get_package_family repo "foo"
       (start (fs_of []))).2 in
  let w2 := set_fs disk w1 in
  is_valid_package_name "foo" = true
  ∧ isdir (fs w2)
      (os_path_join (FileSystemPackageRepository.location repo) "foo")
    = true
  ∧ FileSystemPackageRepository.get_package_family repo "foo" w2
    = (Ok None, w2).
Proof.
  intros w1 w2. split; [vm_compute; reflexivity|].
  split; [vm_compute; reflexivity|].
  apply cached_property_hit. vm_compute. reflexivity.
Qed.

Lemma get_package_family_resolution_witness :
  let w := start disk in
  pool_ok w
  ∧ family_memo w !! FileSystemPackageRepository._get_family__key repo "foo"
    = None
  ∧ ∃ r w',
      FileSystemPackageRepository.get_package_family repo "foo" w = (r, w')
      ∧ family_resolution repo "foo" (fs w) r
      ∧ (∀ family, r = Ok family →
           family_memo w'
             !! FileSystemPackageRepository._get_family__key repo "foo"
           = Some family)
      ∧ (∀ e, r = Raise e → family_memo w' = family_memo w).
Proof.
  intros w.
  assert (family_memo w
            !! FileSystemPackageRepository._get_family__key repo "foo"
          = None) as H2 by (vm_compute; reflexivity).
  split; [exact pool_ok_start_disk|]. split; [exact H2|].
  exact (proj2 (get_package_family_resolution repo "foo" w
                  pool_ok_start_disk) H2).
Defined.

(** A definition file created after the package was first probed is not
    seen: the load still raises. *)
Lemma load_ignores_file_created_later :
  let w1 := (FileSystemPackageResource.filepath foo_9_9 (start disk)).2 in
  let w2 :=
    set_fs (fs_of [("/repo/foo/9.9/package.py",
                    File "name: foo" (st 20 2000))]) w1 in
  FileSystemPackageResource.path foo_9_9 = Ok "/repo/foo/9.9"
  ∧ isfile (fs w2) (os_path_join "/repo/foo/9.9" "package.py") = true
  ∧ (FileSystemPackageResource._load foo_9_9 w2).1
    = Raise PackageMetadataError.
Proof. repeat split; vm_compute; reflexivity. Qed.

Lemma load_raises_iff_probe_found_nothing_witness :
  let w := start disk in
  FileSystemPackageResource.path foo_9_9 = Ok "/repo/foo/9.9"
  ∧ filepath_memo w !! res_id foo_9_9 = None
  ∧ ((∃ w', FileSystemPackageResource._load foo_9_9 w
            = (Raise PackageMetadataError, w'))
     ↔ isfile (fs w) (os_path_join "/repo/foo/9.9" "package.py") = false
       ∧ isfile (fs w) (os_path_join "/repo/foo/9.9" "package.yaml")
         = false).
Proof.
  intros w.
  assert (FileSystemPackageResource.path foo_9_9 = Ok "/repo/foo/9.9") as H1
    by (vm_compute; reflexivity).
  assert (filepath_memo w !! res_id foo_9_9 = None) as H2
    by (vm_compute; reflexivity).
  split; [exact H1|]. split; [exact H2|].
  exact (proj1 (proj2 (load_raises_iff_probe_found_nothing foo_9_9
                         "/repo/foo/9.9" w H1)) H2).
Defined.


Lemma get_last_release_time_never_raises_witness :
  backing_path foo = Ok "/repo/foo"
  ∧ FileSystemPackageRepository.get_last_release_time repo foo (start disk)
    = (Ok (mtime_or_zero disk "/repo/foo"),
       log (EvStat "/repo/foo") (start disk)).
Proof.
  assert (backing_path foo = Ok "/repo/foo") as H1 by (vm_compute; reflexivity).
  split; [exact H1|].
  exact (proj1 (get_last_release_time_never_raises repo foo "/repo/foo"
                  (start disk) H1)).
Defined.

Lemma load_old_formats_recovers_nothing_witness :
  let w := start disk in
  let path := "/repo/foo/1.0/package.yaml" in
  let w1 := (FileSystemPackageResource.uri foo_1_0 w).2 in
  regular_files_are_leaves (fs w)
  ∧ FileSystemPackageResource.uri foo_1_0 w = (Ok (Some path), w1)
  ∧ fs w path = Some (File definition_file (st 4 400))
  ∧ fs w "/repo/foo/1.0/.metadata/release_time.txt"
    = Some (File "1400000000" (st 7 700))
  ∧ ∃ w',
      FileSystemPackageResource._load_old_formats foo_1_0 w = (Ok VNone, w')
      ∧ trace w'
        = (trace w1 ++ [EvIsFile (os_path_join path "release.yaml");
                        EvIsDir (os_path_join path ".metadata")])%list.
Proof.
  intros w path w1.
  assert (FileSystemPackageResource.uri foo_1_0 w = (Ok (Some path), w1))
    as H2.
  { apply surjective_run. vm_compute. reflexivity. }
  assert (fs w path = Some (File definition_file (st 4 400))) as H3
    by (vm_compute; reflexivity).
  split; [exact disk_leaves|]. split; [exact H2|]. split; [exact H3|].
  split; [vm_compute; reflexivity|].
  exact (load_old_formats_recovers_nothing foo_1_0 path definition_file
           (st 4 400) w w1 disk_leaves H2 H3).
Defined.

Lemma get_version_dirs_scan_witness :
  let w := start disk in
  fs w "/repo/foo" = Some (Dir ["1.0"] (st 2 200))
  ∧ listdir_memo w !! ("/repo/foo", st_ino (st 2 200), st_mtime (st 2 200))
    = None
  ∧ ∃ w',
      PackageRepository._get_version_dirs "/repo/foo" w
      = (Ok (List.filter (version_dir (fs w) "/repo/foo") ["1.0"]), w')
      ∧ listdir_memo w'
        = <[("/repo/foo", st_ino (st 2 200), st_mtime (st 2 200)) :=
              List.filter (version_dir (fs w) "/repo/foo") ["1.0"]]>
            (listdir_memo w)
      ∧ trace w'
        = (trace w ++ EvStat "/repo/foo" :: EvListDir "/repo/foo"
                      :: scan_events "/repo/foo" ["1.0"])%list.
Proof.
  intros w.
  assert (fs w "/repo/foo" = Some (Dir ["1.0"] (st 2 200))) as H1
    by (vm_compute; reflexivity).
  assert (listdir_memo w
            !! ("/repo/foo", st_ino (st 2 200), st_mtime (st 2 200))
          = None) as H2 by reflexivity.
  split; [exact H1|]. split; [exact H2|].
  exact (get_version_dirs_scan "/repo/foo" ["1.0"] (st 2 200) w H1 H2).
Defined.

Lemma get_version_dirs_not_a_directory_witness :
  let w := start disk in
  let root := "/repo/foo/1.0/package.yaml" in
  isdir (fs w) root = false
  ∧ (∀ node, fs w root = Some node →
       listdir_memo w !! (root, st_ino (node_stat node),
                          st_mtime (node_stat node)) = None)
  ∧ ∃ w', PackageRepository._get_version_dirs root w = (Raise OSError, w')
        ∧ listdir_memo w' = listdir_memo w.
Proof.
  intros w root.
  assert (isdir (fs w) root = false) as H1 by (vm_compute; reflexivity).
  assert (∀ node, fs w root = Some node →
            listdir_memo w !! (root, st_ino (node_stat node),
                               st_mtime (node_stat node)) = None) as H2.
  { intros node _. reflexivity. }
  split; [exact H1|]. split; [exact H2|].
  exact (get_version_dirs_not_a_directory root w H1 H2).
Defined.

Lemma get_version_dirs_memoized_witness :
  let w := start disk in
  let w1 := (PackageRepository._get_version_dirs "/repo/foo" w).2 in
  let w2 := set_fs (fs_of [("/repo/foo", Dir [] (st 2 200))]) w1 in
  fs w "/repo/foo" = Some (Dir ["1.0"] (st 2 200))
  ∧ PackageRepository._get_version_dirs "/repo/foo" w = (Ok ["1.0"], w1)
  ∧ listdir_memo w1 ⊆ listdir_memo w2
  ∧ fs w2 "/repo/foo" = Some (Dir [] (st 2 200))
  ∧ node_stat (Dir [] (st 2 200)) = node_stat (Dir ["1.0"] (st 2 200))
  ∧ PackageRepository._get_version_dirs "/repo/foo" w2
    = (Ok ["1.0"], log (EvStat "/repo/foo") w2).
Proof.
  intros w w1 w2.
  assert (fs w "/repo/foo" = Some (Dir ["1.0"] (st 2 200))) as H1
    by (vm_compute; reflexivity).
  assert (PackageRepository._get_version_dirs "/repo/foo" w
          = (Ok ["1.0"], w1)) as H2.
  { apply surjective_run. vm_compute. reflexivity. }
  assert (listdir_memo w1 ⊆ listdir_memo w2) as H3 by done.
  assert (fs w2 "/repo/foo" = Some (Dir [] (st 2 200))) as H4
    by (vm_compute; reflexivity).
  assert (node_stat (Dir [] (st 2 200)) = node_stat (Dir ["1.0"] (st 2 200)))
    as H5 by reflexivity.
  repeat (split; [assumption|]).
  exact (get_version_dirs_memoized "/repo/foo" ["1.0"]
           (Dir ["1.0"] (st 2 200)) (Dir [] (st 2 200)) w w1 w2
           H1 H2 H3 H4 H5).
Defined.



Lemma iter_packages_missing_directory_witness :
  let w := start disk in
  FileSystemPackageFamilyResource.path gone = Ok "/repo/gone"
  ∧ isfile (fs w) (os_path_join "/repo/gone" "package.py") = false
  ∧ isfile (fs w) (os_path_join "/repo/gone" "package.yaml") = false
  ∧ fs w "/repo/gone" = None
  ∧ ∃ w', FileSystemPackageFamilyResource.iter_packages gone w
          = (Raise OSError, w').
Proof.
  intros w.
  assert (FileSystemPackageFamilyResource.path gone = Ok "/repo/gone") as H1
    by (vm_compute; reflexivity).
  assert (isfile (fs w) (os_path_join "/repo/gone" "package.py") = false)
    as H2 by (vm_compute; reflexivity).
  assert (isfile (fs w) (os_path_join "/repo/gone" "package.yaml") = false)
    as H3 by (vm_compute; reflexivity).
  assert (fs w "/repo/gone" = None) as H4 by (vm_compute; reflexivity).
  repeat (split; [assumption|]).
  exact (iter_packages_missing_directory gone "/repo/gone" w H1 H2 H3 H4).
Defined.

Lemma filepath_probed_once_witness :
  let w := start disk in
  let w1 := (FileSystemPackageResource.filepath foo_9_9 w).2 in
  let w2 :=
    set_fs (fs_of [("/repo/foo/9.9/package.py",
                    File "name: foo" (st 20 2000))]) w1 in
  FileSystemPackageResource.filepath foo_9_9 w = (Ok None, w1)
  ∧ filepath_memo w1 ⊆ filepath_memo w2
  ∧ isfile (fs w2) "/repo/foo/9.9/package.py" = true
  ∧ FileSystemPackageResource.filepath foo_9_9 w2 = (Ok None, w2)
  ∧ FileSystemPackageResource._load foo_9_9 w2
    = (Raise PackageMetadataError, w2).
Proof.
  intros w w1 w2.
  assert (FileSystemPackageResource.filepath foo_9_9 w = (Ok None, w1))
    as H1.
  { apply surjective_run. vm_compute. reflexivity. }
  assert (filepath_memo w1 ⊆ filepath_memo w2) as H2 by done.
  split; [exact H1|]. split; [exact H2|].
  split; [vm_compute; reflexivity|].
  destruct (filepath_probed_once foo_9_9 None w w1 w2 H1 H2) as [H3 H4].
  split; [exact H3 | exact (H4 eq_refl)].
Defined.

Lemma load_with_timestamp_skips_backfill_witness :
  let w := start stamped_disk in
  let parsed : doc := {[ "name" := VStr "foo"; "timestamp" := VStr "7" ]} in
  FileSystemPackageResource.path foo_1_0 = Ok "/repo/foo/1.0"
  ∧ filepath_memo w !! res_id foo_1_0 = None
  ∧ probe (fs w) "/repo/foo/1.0" "package"
    = (Some "/repo/foo/1.0/package.yaml", Some yaml)
  ∧ fs w "/repo/foo/1.0/package.yaml" = Some (File stamped_file (st 4 400))
  ∧ load_structured yaml stamped_file = Some parsed
  ∧ parsed !! "timestamp" = Some (VStr "7")
  ∧ ∃ w', FileSystemPackageResource._load foo_1_0 w = (Ok parsed, w')
        ∧ trace w'
          = (trace w ++ probes (fs w) "/repo/foo/1.0" "package"
                     ++ [EvRead "/repo/foo/1.0/package.yaml"])%list.
Proof.
  intros w parsed.
  assert (FileSystemPackageResource.path foo_1_0 = Ok "/repo/foo/1.0") as H1
    by (vm_compute; reflexivity).
  assert (filepath_memo w !! res_id foo_1_0 = None) as H2
    by (vm_compute; reflexivity).
  assert (probe (fs w) "/repo/foo/1.0" "package"
          = (Some "/repo/foo/1.0/package.yaml", Some yaml)) as H3
    by (vm_compute; reflexivity).
  assert (fs w "/repo/foo/1.0/package.yaml"
          = Some (File stamped_file (st 4 400))) as H4
    by (vm_compute; reflexivity).
  assert (load_structured yaml stamped_file = Some parsed) as H5
    by (vm_compute; reflexivity).
  assert (parsed !! "timestamp" = Some (VStr "7")) as H6
    by (vm_compute; reflexivity).
  repeat (split; [assumption|]).
  exact (load_with_timestamp_skips_backfill foo_1_0 "/repo/foo/1.0"
           "/repo/foo/1.0/package.yaml" stamped_file yaml (st 4 400)
           parsed (VStr "7") w H1 H2 H3 H4 H5 H6).
Defined.

Lemma load_without_legacy_files_witness :
  let w := start disk in
  let parsed : doc := {[ "name" := VStr "baz" ]} in
  FileSystemPackageResource.path baz_package = Ok "/repo/baz"
  ∧ filepath_current w baz_package "/repo/baz"
  ∧ probe (fs w) "/repo/baz" "package"
    = (Some "/repo/baz/package.py", Some py)
  ∧ fs w "/repo/baz/package.py" = Some (File "name: baz" (st 9 900))
  ∧ load_structured py "name: baz" = Some parsed
  ∧ isfile (fs w) (os_path_join "/repo/baz/package.py" "release.yaml")
    = false
  ∧ isdir (fs w) (os_path_join "/repo/baz/package.py" ".metadata") = false
  ∧ ∃ w', FileSystemPackageResource._load baz_package w = (Ok parsed, w').
Proof.
  intros w parsed.
  assert (FileSystemPackageResource.path baz_package = Ok "/repo/baz") as H1
    by (vm_compute; reflexivity).
  assert (filepath_current w baz_package "/repo/baz") as H2.
  { intros v. vm_compute. discriminate. }
  assert (probe (fs w) "/repo/baz" "package"
          = (Some "/repo/baz/package.py", Some py)) as H3
    by (vm_compute; reflexivity).
  assert (fs w "/repo/baz/package.py" = Some (File "name: baz" (st 9 900)))
    as H4 by (vm_compute; reflexivity).
  assert (load_structured py "name: baz" = Some parsed) as H5
    by (vm_compute; reflexivity).
  assert (isfile (fs w) (os_path_join "/repo/baz/package.py" "release.yaml")
          = false) as H6 by (vm_compute; reflexivity).
  assert (isdir (fs w) (os_path_join "/repo/baz/package.py" ".metadata")
          = false) as H7 by (vm_compute; reflexivity).
  repeat (split; [assumption|]).
  exact (load_without_legacy_files baz_package "/repo/baz"
           "/repo/baz/package.py" "name: baz" py (st 9 900) parsed w
           H1 H2 H3 H4 H5 H6 H7).
Defined.

Lemma update_changelog_idempotent_witness :
  let data := VDict {[ "changelog" := changelog_lines ]} in
  let data' := VDict {[ "changelog" := VStr "line ..." ]} in
  0 ≤ max_package_changelog_chars
  ∧ FileSystemPackageResource._update_changelog yaml data = Ok data'
  ∧ FileSystemPackageResource._update_changelog yaml data' = Ok data'.
Proof.
  intros data data'.
  assert (0 ≤ max_package_changelog_chars) as H1 by (by vm_compute).
  assert (FileSystemPackageResource._update_changelog yaml data = Ok data')
    as H2 by (vm_compute; reflexivity).
  split; [exact H1|]. split; [exact H2|].
  exact (update_changelog_idempotent yaml data data' H1 H2).
Defined.

Lemma update_changelog_only_changelog_witness :
  let d : doc := {[ "name" := VStr "foo"; "changelog" := changelog_lines ]} in
  let data' :=
    VDict {[ "name" := VStr "foo"; "changelog" := VStr "line ..." ]} in
  0 ≤ max_package_changelog_chars
  ∧ FileSystemPackageResource._update_changelog yaml (VDict d) = Ok data'
  ∧ ∃ d', data' = VDict d'
        ∧ (∀ k, k ≠ "changelog" → d' !! k = d !! k)
        ∧ (d !! "changelog" = None → d' = d)
        ∧ (∀ c, d' !! "changelog" = Some c → d !! "changelog" ≠ Some c →
           ∃ s, c = VStr s ∧ str_len s ≤ max_package_changelog_chars + 3).
Proof.
  intros d data'.
  assert (0 ≤ max_package_changelog_chars) as H1 by (by vm_compute).
  assert (FileSystemPackageResource._update_changelog yaml (VDict d)
          = Ok data') as H2 by (vm_compute; reflexivity).
  split; [exact H1|]. split; [exact H2|].
  exact (update_changelog_only_changelog d data' H1 H2).
Defined.

Lemma get_family_dirs_lists_valid_names_witness :
  let w := start disk in
  let entries := ["foo"; "baz"; "bar.yaml"] in
  fs w (FileSystemPackageRepository.location repo)
  = Some (Dir entries (st 1 100))
  ∧ (FileSystemPackageRepository._get_family_dirs__body repo w).1
    = Ok [("foo", None); ("baz", None); ("bar", Some "yaml")]
  ∧ ∃ dirs w',
      FileSystemPackageRepository._get_family_dirs__body repo w
      = (Ok dirs, w')
      ∧ fs w' = fs w
      ∧ (∀ n e, (n, e) ∈ dirs →
           is_valid_package_name n = true
           ∧ (e = None ∧ n ∈ entries
              ∧ isdir (fs w)
                  (os_path_join (FileSystemPackageRepository.location repo) n)
                = true
              ∨ ∃ x, e = Some x ∧ (x = "py" ∨ x = "yaml")
                   ∧ n +:+ "." +:+ x ∈ entries
                   ∧ isdir (fs w)
                       (os_path_join
                          (FileSystemPackageRepository.location repo)
                          (n +:+ "." +:+ x))
                     = false))
      ∧ (∀ n, n ∈ entries →
           isdir (fs w)
             (os_path_join (FileSystemPackageRepository.location repo) n)
           = true →
           is_valid_package_name n = true → (n, None) ∈ dirs).
Proof.
  intros w entries.
  assert (fs w (FileSystemPackageRepository.location repo)
          = Some (Dir entries (st 1 100))) as H1
    by (vm_compute; reflexivity).
  split; [exact H1|]. split; [vm_compute; reflexivity|].
  exact (get_family_dirs_lists_valid_names repo entries (st 1 100) w H1).
Defined.

Lemma get_family_dirs_not_a_directory_witness :
  let w := start (fs_of []) in
  isdir (fs w) (FileSystemPackageRepository.location repo) = false
  ∧ ∃ w', FileSystemPackageRepository._get_family_dirs__body repo w
          = (Raise OSError, w')
        ∧ trace w'
          = (trace w
             ++ [EvListDir (FileSystemPackageRepository.location repo)])%list.
Proof.
  intros w.
  assert (isdir (fs w) (FileSystemPackageRepository.location repo) = false)
    as H1 by (vm_compute; reflexivity).
  split; [exact H1|].
  exact (get_family_dirs_not_a_directory repo w H1).
Defined.

Lemma get_family_dirs_names_resolve_witness :
  let w := start disk in
  let entries := ["foo"; "baz"; "bar.yaml"] in
  fs w (FileSystemPackageRepository.location repo)
  = Some (Dir entries (st 1 100))
  ∧ (∀ entry, entry ∈ entries →
       isdir (fs w)
         (os_path_join (FileSystemPackageRepository.location repo) entry)
       = true
       ∨ isfile (fs w)
           (os_path_join (FileSystemPackageRepository.location repo) entry)
         = true)
  ∧ ∃ dirs w',
      FileSystemPackageRepository._get_family_dirs__body repo w
      = (Ok dirs, w')
      ∧ ∀ n e w2,
          (n, e) ∈ dirs →
          pool_ok w2 → fs w2 = fs w →
          family_memo w2
            !! FileSystemPackageRepository._get_family__key repo n = None →
          ∃ family w3,
            FileSystemPackageRepository.get_package_family repo n w2
            = (Ok (Some family), w3)
            ∧ name family = VarStr n
            ∧ (e = None →
               res_key family = FileSystemPackageFamilyResource_key).
Proof.
  intros w entries.
  assert (fs w (FileSystemPackageRepository.location repo)
          = Some (Dir entries (st 1 100))) as H1
    by (vm_compute; reflexivity).
  assert (∀ entry, entry ∈ entries →
            isdir (fs w)
              (os_path_join (FileSystemPackageRepository.location repo)
                 entry) = true
            ∨ isfile (fs w)
                (os_path_join (FileSystemPackageRepository.location repo)
                   entry) = true) as H2.
  { intros entry Hin.
    apply elem_of_cons in Hin as [->|Hin];
      [left; vm_compute; reflexivity|].
    apply elem_of_cons in Hin as [->|Hin];
      [left; vm_compute; reflexivity|].
    apply elem_of_cons in Hin as [->|Hin];
      [right; vm_compute; reflexivity|].
    by apply elem_of_nil in Hin. }
  split; [exact H1|]. split; [exact H2|].
  exact (get_family_dirs_names_resolve repo entries (st 1 100) w H1 H2).
Defined.

Lemma combined_family_loads_probed_file_witness :
  let w := start disk in
  pool_ok w
  ∧ family_memo w !! FileSystemPackageRepository._get_family__key repo "bar"
    = None
  ∧ is_valid_package_name "bar" = true
  ∧ isdir (fs w)
      (os_path_join (FileSystemPackageRepository.location repo) "bar")
    = false
  ∧ probe (fs w) (FileSystemPackageRepository.location repo) "bar"
    = (Some "/repo/bar.yaml", Some yaml)
  ∧ ∃ family w1,
      FileSystemPackageRepository.get_package_family repo "bar" w
      = (Ok (Some family), w1)
      ∧ res_key family = FileSystemCombinedPackageFamilyResource_key
      ∧ FileSystemCombinedPackageFamilyResource.filepath family
        = Ok "/repo/bar.yaml"
      ∧ ∀ w2, FileSystemCombinedPackageFamilyResource._load family w2
              = load_from_file "/repo/bar.yaml" yaml None w2.
Proof.
  intros w.
  assert (family_memo w
            !! FileSystemPackageRepository._get_family__key repo "bar"
          = None) as H2 by (vm_compute; reflexivity).
  assert (is_valid_package_name "bar" = true) as H3
    by (vm_compute; reflexivity).
  assert (isdir (fs w)
            (os_path_join (FileSystemPackageRepository.location repo) "bar")
          = false) as H4 by (vm_compute; reflexivity).
  assert (probe (fs w) (FileSystemPackageRepository.location repo) "bar"
          = (Some "/repo/bar.yaml", Some yaml)) as H5
    by (vm_compute; reflexivity).
  split; [exact pool_ok_start_disk|].
  repeat (split; [assumption|]).
  exact (combined_family_loads_probed_file repo "bar" "/repo/bar.yaml" yaml w
           pool_ok_start_disk H2 H3 H4 H5).
Defined.

Lemma pool_ok_bar : pool_ok (set_pool {[ res_handle bar := bar ]} (start disk)).
Proof.
  intros h r Hl.
  change (({[ res_handle bar := bar ]} : gmap ResourceHandle Resource) !! h
          = Some r) in Hl.
  apply lookup_singleton_Some in Hl as [<- <-]. reflexivity.
Defined.

Lemma combined_iter_packages_children_witness :
  let w := set_pool {[ res_handle bar := bar ]} (start disk) in
  let versions : option (list Version) := Some [[1; 0]; [1; 1]] in
  pool_ok w
  ∧ pool w !! (FileSystemCombinedPackageFamilyResource_key,
               {[ "location" := location bar; "name" := name bar;
                  "ext" := FileSystemCombinedPackageFamilyResource.ext bar ]})
    = Some bar
  ∧ ((λ package, get package "version")
       <$> default []
             match (FileSystemCombinedPackageFamilyResource.iter_packages
                      version_text versions bar w).1 with
             | Ok packages => Some packages
             | Raise _ => None
             end)
    = [VarStr "1.0"; VarStr "1.1"]
  ∧ ∃ packages w',
      FileSystemCombinedPackageFamilyResource.iter_packages
        version_text versions bar w = (Ok packages, w')
      ∧ ∀ package,
          package ∈ packages →
          parent_memo w' !! res_id package = None →
          ∃ w'', FileSystemCombinedPackageResource.parent package w'
                 = (Ok bar, w'').
Proof.
  intros w versions.
  assert (pool w !! (FileSystemCombinedPackageFamilyResource_key,
                     {[ "location" := location bar; "name" := name bar;
                        "ext" :=
                          FileSystemCombinedPackageFamilyResource.ext bar ]})
          = Some bar) as H2 by (vm_compute; reflexivity).
  split; [exact pool_ok_bar|]. split; [exact H2|].
  split; [vm_compute; reflexivity|].
  destruct (combined_iter_packages_children version_text versions bar w
              pool_ok_bar H2)
    as (packages & w' & Hrun & _ & _ & _ & Hparent).
  exists packages, w'. split; [exact Hrun | exact Hparent].
Defined.

Lemma combined_iter_variants_children_witness :
  let w := start disk in
  let variants := [VList [VStr "python-2.5"]; VList [VStr "python-2.6"]] in
  let data : doc := {[ "variants" := VList variants ]} in
  let self := combined_package "pkgC" "1.0" in
  pool_ok w
  ∧ default (VList []) (data !! "variants") = VList variants
  ∧ ∃ vs w',
      FileSystemCombinedPackageResource.iter_variants data self w
      = (Ok vs, w')
      ∧ (λ v, get v "index") <$> vs = [VarInt 0; VarInt 1].
Proof.
  intros w variants data self.
  assert (default (VList []) (data !! "variants") = VList variants) as H2
    by (vm_compute; reflexivity).
  split; [exact pool_ok_start_disk|]. split; [exact H2|].
  destruct (combined_iter_variants_children data self variants w
              pool_ok_start_disk H2)
    as (vs & w' & Hrun & _ & _ & Hindex & _).
  exists vs, w'. split; [exact Hrun | exact Hindex].
Defined.
